(** * The workbench's ArgsForm and LogTab components

    A shallow embedding of the two React components
    [src/components/SetupTab/ArgsForm/index.jsx] and
    [src/renderer/components/LogTab/index.jsx].

    Instance fields ([this.dragDepth], [this.tail], [this.state]) become
    record fields, handlers become functions that pass the instance and the
    surrounding world explicitly, and the collaborators the components only
    call (the parent's callbacks, the datastack parser, the [tail] and
    [sanitize-html] packages, the logger) are parameters of a section. *)

From Stdlib Require Import String Ascii List Bool ZArith Arith Lia.
Import ListNotations.
Local Open Scope string_scope.

(** ** JavaScript odds and ends shared by both components *)

(** How an [async] handler (or a plain one) ends: it runs to its end, or a
    [throw] leaves it (for an [async] function: the promise is rejected). *)
Inductive Completion : Type :=
| Returned
| Thrown.

Module ArgsForm.

(** *** Data *)

(** A value of an argument: [PropTypes.oneOfType([string, bool])]. *)
Inductive Value : Type :=
| VStr (s : string)
| VBool (b : bool).

(** [datastack.args]: argument key to value, in the file's order. *)
Definition Args : Type := list (string * Value).

(** What [fetchDatastackFromFile] resolves to. *)
Record Datastack : Type := mkDatastack {
  module_name : string;
  args : Args
}.

(** An entry of [event.dataTransfer.files]. *)
Record File : Type := mkFile { path : string }.

(** The parts of a synthetic drag event the handlers read or write. *)
Record DragEvent : Type := mkDragEvent {
  defaultPrevented : bool;
  propagationStopped : bool;
  dropEffect : string;
  files : list File;
  target_name : string;
  target_value : string
}.

Definition preventDefault (e : DragEvent) : DragEvent :=
  mkDragEvent true (propagationStopped e) (dropEffect e) (files e)
              (target_name e) (target_value e).

Definition stopPropagation (e : DragEvent) : DragEvent :=
  mkDragEvent (defaultPrevented e) true (dropEffect e) (files e)
              (target_name e) (target_value e).

Definition set_dropEffect (v : string) (e : DragEvent) : DragEvent :=
  mkDragEvent (defaultPrevented e) (propagationStopped e) v (files e)
              (target_name e) (target_value e).

(** [dragOverHandler(event)], the function outside the class. *)
Definition dragOverHandler (event : DragEvent) : DragEvent :=
  set_dropEffect "move" (preventDefault event).

(** [formRef.current.classList]: a DOM token list. *)
Definition ClassList : Type := list string.

Definition classList_contains (c : string) (l : ClassList) : bool :=
  existsb (String.eqb c) l.

Definition classList_add (c : string) (l : ClassList) : ClassList :=
  if classList_contains c l then l else (l ++ [c])%list.

Definition classList_remove (c : string) (l : ClassList) : ClassList :=
  filter (fun x => negb (String.eqb c x)) l.

(** The instance fields of the component: [this.dragDepth] and the class
    list of the form element behind [this.formRef]. *)
Record Instance : Type := mkInstance {
  dragDepth : Z;
  classList : ClassList
}.

(** The constructor: [this.dragDepth = 0]; the form is rendered with
    [className="args-form"]. *)
Definition constructor : Instance := mkInstance 0 ["args-form"].

(** The "dragging" CSS indicator. *)
Definition dragging (i : Instance) : bool :=
  classList_contains "dragging" (classList i).

(** Calls the handlers make on their collaborators, in order. *)
Inductive Call : Type :=
| Alert (msg : string)
| FetchDatastackFromFile (p : string)
| BatchUpdateArgs (a : Args)
| UpdateArgValues (name : string) (v : Value)
| ShowOpenDialog (prop : string).

Section Handlers.

(** The state of the parent that owns the arguments; the component only
    reaches it through the two callbacks of its props. *)
Variable ParentState : Type.

Record Props : Type := mkProps {
  pyModuleName : string;
  batchUpdateArgs : Args -> ParentState -> ParentState;
  updateArgValues : string -> Value -> ParentState -> ParentState
}.

(** [fetchDatastackFromFile] of [server_requests]: the promise resolves to
    a datastack, or is rejected ([None]). *)
Variable fetchDatastackFromFile : string -> option Datastack.

(** [boolStringToBoolean] of [utils]. *)
Variable boolStringToBoolean : string -> bool.

(** [remote.dialog.showOpenDialog]: the selected [filePaths]. *)
Variable showOpenDialog : string -> list string.

Variable props : Props.

(** What a handler can change besides the instance: the parent's state,
    and the record of calls made. *)
Record World : Type := mkWorld {
  parent : ParentState;
  calls : list Call
}.

Definition call (c : Call) (w : World) : World :=
  mkWorld (parent w) (calls w ++ [c])%list.

Definition do_batchUpdateArgs (a : Args) (w : World) : World :=
  mkWorld (batchUpdateArgs props a (parent w)) (calls w ++ [BatchUpdateArgs a])%list.

Definition do_updateArgValues (n : string) (v : Value) (w : World) : World :=
  mkWorld (updateArgValues props n v (parent w)) (calls w ++ [UpdateArgValues n v])%list.

Record Result : Type := mkResult {
  r_inst : Instance;
  r_world : World;
  r_event : DragEvent;
  r_completion : Completion
}.

(** The text of the mismatch alert (the template literal of the handler). *)
Definition mismatch_message (file_module form_module : string) : string :=
  "Parameter/Log file for " ++ file_module
    ++ " does not match this model: " ++ form_module.

(** [async onArchiveDragDrop(event)].  The handler is run to its end in
    one go: nothing else is taken to happen while it awaits the parser. *)
Definition onArchiveDragDrop (i : Instance) (w : World) (event : DragEvent)
  : Result :=
  let event := stopPropagation (preventDefault event) in
  let i := mkInstance 0 (classList_remove "dragging" (classList i)) in
  let fileList := files event in
  if negb (Nat.eqb (length fileList) 1) then
    mkResult i (call (Alert "only drop one file at a time.") w) event Thrown
  else
    match fileList with
    | [] => mkResult i w event Thrown (* fileList[0] of an empty list *)
    | f :: _ =>
        let w := call (FetchDatastackFromFile (path f)) w in
        match fetchDatastackFromFile (path f) with
        | None => mkResult i w event Thrown
        | Some datastack =>
            if String.eqb (module_name datastack) (pyModuleName props) then
              mkResult i (do_batchUpdateArgs (args datastack) w) event Returned
            else
              mkResult i
                (call (Alert (mismatch_message (module_name datastack)
                                               (pyModuleName props))) w)
                event Thrown
        end
    end.

(** [dragEnterHandler(event)]. *)
Definition dragEnterHandler (i : Instance) (event : DragEvent)
  : Instance * DragEvent :=
  let event := set_dropEffect "move" (stopPropagation (preventDefault event)) in
  let depth := (dragDepth i + 1)%Z in
  let cl := classList i in
  let cl := if negb (classList_contains "dragging" cl)
            then classList_add "dragging" cl else cl in
  (mkInstance depth cl, event).

(** [dragLeaveHandler(event)]. *)
Definition dragLeaveHandler (i : Instance) (event : DragEvent)
  : Instance * DragEvent :=
  let event := stopPropagation (preventDefault event) in
  let depth := (dragDepth i - 1)%Z in
  let cl := classList i in
  let cl := if (depth <=? 0)%Z then classList_remove "dragging" cl else cl in
  (mkInstance depth cl, event).

(** [inputDropHandler(event)]: a drop on one input. *)
Definition inputDropHandler (i : Instance) (w : World) (event : DragEvent)
  : Result :=
  let event := stopPropagation (preventDefault event) in
  let name := target_name event in
  let fileList := files event in
  match fileList with
  | f :: _ => mkResult i (do_updateArgValues name (VStr (path f)) w) event Returned
  | [] => mkResult i w event Returned
  end.

(** [handleChange(event)]. *)
Definition handleChange (w : World) (name value : string) : World :=
  do_updateArgValues name (VStr value) w.

(** [handleBoolChange(event)]. *)
Definition handleBoolChange (w : World) (name value : string) : World :=
  do_updateArgValues name (VBool (boolStringToBoolean value)) w.

(** [async selectFile(event)]. *)
Definition selectFile (w : World) (name value : string) : World :=
  let prop := if String.eqb value "directory" then "openDirectory" else "openFile" in
  let w := call (ShowOpenDialog prop) w in
  match showOpenDialog prop with
  | p :: _ => do_updateArgValues name (VStr p) w
  | [] => w
  end.

(** *** The form's drag events as a state machine *)

Inductive FormDrag : Type :=
| DragEnter
| DragLeave
| Drop (fs : list File).

Definition blank_event (fs : list File) : DragEvent :=
  mkDragEvent false false "none" fs EmptyString EmptyString.

Definition drag_step (st : Instance * World) (e : FormDrag) : Instance * World :=
  let (i, w) := st in
  match e with
  | DragEnter => (fst (dragEnterHandler i (blank_event [])), w)
  | DragLeave => (fst (dragLeaveHandler i (blank_event [])), w)
  | Drop fs => let r := onArchiveDragDrop i w (blank_event fs) in
               (r_inst r, r_world r)
  end.

Definition drag_run (st : Instance * World) (es : list FormDrag)
  : Instance * World :=
  fold_left drag_step es st.

(** The events a browser sends are nested: a drag-leave only follows a
    drag-enter that has not been left yet, and a drop ends the drag.
    [nested n es] checks this for [es], with [n] elements entered. *)
Fixpoint nested (n : nat) (es : list FormDrag) : bool :=
  match es with
  | [] => true
  | DragEnter :: es => nested (S n) es
  | DragLeave :: es => match n with
                       | O => false
                       | S m => nested m es
                       end
  | Drop _ :: es => nested 0 es
  end.

End Handlers.

Arguments pyModuleName {ParentState} _.
Arguments batchUpdateArgs {ParentState} _ _ _.
Arguments updateArgValues {ParentState} _ _ _ _.
Arguments parent {ParentState} _.
Arguments calls {ParentState} _.
Arguments mkWorld {ParentState} _ _.
Arguments r_inst {ParentState} _.
Arguments r_world {ParentState} _.
Arguments r_event {ParentState} _.
Arguments r_completion {ParentState} _.
Arguments onArchiveDragDrop {ParentState} _ _ _ _ _.
Arguments inputDropHandler {ParentState} _ _ _ _.
Arguments drag_step {ParentState} _ _ _ _.
Arguments drag_run {ParentState} _ _ _ _.

(** The invariant of the drag state machine: with [n] elements entered,
    the counter is [n] and the indicator shows exactly when [n] is
    positive. *)
Definition drag_inv (n : nat) (i : Instance) : Prop :=
  dragDepth i = Z.of_nat n /\ dragging i = (0 <? Z.of_nat n)%Z.

(** An example form: the parent's state is the argument set, and the bulk
    update replaces it. *)
Definition example_form_props : Props Args :=
  mkProps Args "natcap.invest.carbon"
    (fun a _ => a)
    (fun n v st => (n, v) :: st).

Definition example_carbon : Datastack :=
  mkDatastack "natcap.invest.carbon" [("workspace_dir", VStr "/tmp/ws")].

Definition example_fetch (p : string) : option Datastack :=
  if String.eqb p "/data/carbon.json"
  then Some example_carbon
  else if String.eqb p "/data/sdr.json"
  then Some (mkDatastack "natcap.invest.sdr" [])
  else None.

Definition example_world : World Args :=
  mkWorld [("n_workers", VStr "1")] [].

Definition example_drop_one : DragEvent :=
  blank_event [mkFile "/data/carbon.json"].

Definition example_drop_two : DragEvent :=
  blank_event [mkFile "/data/carbon.json"; mkFile "/data/sdr.json"].

Definition example_drop_none : DragEvent := blank_event [].

(** The form after drag-enter, drag-enter, drag-leave. *)
Definition example_nested_drag : Instance :=
  fst (drag_run example_fetch example_form_props (constructor, example_world)
         [DragEnter; DragEnter; DragLeave]).

End ArgsForm.

Module LogTab.

(** *** Regular expressions

    The patterns of [this.logPatterns] are only ever used through
    [pattern.test(line)], and none carries the [g] flag, so a pattern is a
    pure test on the line.  [LOG_ERROR_REGEX] is a literal of the source and
    is embedded as a regular expression matched by derivatives; strings are
    taken over the ASCII range, on which [\s] is tab, line feed, vertical
    tab, form feed, carriage return and space. *)
Inductive re : Type :=
| Void
| Eps
| Bol                       (* ^ : at the start of the input *)
| Cls (p : ascii -> bool)   (* one character of a class *)
| Alt (a b : re)
| Seq (a b : re)
| Star (a : re).

(** [nullable start r]: [r] matches the empty string, at the start of the
    input when [start] holds. *)
Fixpoint nullable (start : bool) (r : re) : bool :=
  match r with
  | Void => false
  | Eps => true
  | Bol => start
  | Cls _ => false
  | Alt a b => nullable start a || nullable start b
  | Seq a b => nullable start a && nullable start b
  | Star _ => true
  end.

Definition alt (a b : re) : re :=
  match a, b with
  | Void, _ => b
  | _, Void => a
  | _, _ => Alt a b
  end.

Definition seq (a b : re) : re :=
  match a, b with
  | Void, _ => Void
  | _, Void => Void
  | Eps, _ => b
  | _, _ => Seq a b
  end.

Fixpoint deriv (start : bool) (c : ascii) (r : re) : re :=
  match r with
  | Void | Eps | Bol => Void
  | Cls p => if p c then Eps else Void
  | Alt a b => alt (deriv start c a) (deriv start c b)
  | Seq a b => if nullable start a
               then alt (seq (deriv start c a) b) (deriv start c b)
               else seq (deriv start c a) b
  | Star a => seq (deriv start c a) (Star a)
  end.

Fixpoint matches (start : bool) (r : re) (s : string) : bool :=
  match s with
  | EmptyString => nullable start r
  | String c s' => matches false (deriv start c r) s'
  end.

Definition any : re := Cls (fun _ => true).

(** [re_test r s]: [r] matches somewhere in [s], as [RegExp.prototype.test]
    does for a pattern without flags. *)
Definition re_test (r : re) (s : string) : bool :=
  matches true (Seq (Star any) (Seq r (Star any))) s.

Fixpoint lit (s : string) : re :=
  match s with
  | EmptyString => Eps
  | String c s' => Seq (Cls (Ascii.eqb c)) (lit s')
  end.

Definition plus (r : re) : re := Seq r (Star r).

Definition in_range (lo hi : nat) (c : ascii) : bool :=
  Nat.leb lo (nat_of_ascii c) && Nat.leb (nat_of_ascii c) hi.

Definition upper : re := Cls (in_range 65 90).
Definition lower : re := Cls (in_range 97 122).
Definition space : re :=
  Cls (fun c => in_range 9 13 c || Nat.eqb (nat_of_ascii c) 32).

(** The literal [LOG_ERROR_REGEX], written here with blanks between its
    parts:  (Traceback) | ( ([A-Z]{1} [a-z]* ){1,} Error ) | (ERROR) | (^ \s \s* ) *)
Definition LOG_ERROR_REGEX : re :=
  Alt (lit "Traceback")
 (Alt (Seq (plus (Seq upper (Star lower))) (lit "Error"))
 (Alt (lit "ERROR")
      (Seq Bol (Seq space (Star space))))).

(** A pattern: a literal of the source, or [new RegExp(source)]. *)
Inductive RegExp : Type :=
| Literal (r : re)
| NewRegExp (source : string).

(** *** The sanitizer's options *)

Record SanitizeOptions : Type := mkSanitizeOptions {
  allowedTags : list string;
  allowedAttributes : list (string * list string)
}.

Definition LOG_TEXT_TAG : string := "span".

(** The double quote character of the template literal of [markupLine]. *)
Definition dquote : string := String (ascii_of_nat 34) EmptyString.

Definition ALLOWED_HTML_OPTIONS : SanitizeOptions :=
  mkSanitizeOptions [LOG_TEXT_TAG] [(LOG_TEXT_TAG, ["class"])].

(** *** The [tail] package, the logger and the component's data *)

(** A thrown value; the handlers only read its [stack]. *)
Record Error : Type := mkError { stack : string }.

(** The options object given to [new Tail]. *)
Record TailOptions : Type := mkTailOptions {
  fromBeginning : bool;
  useWatchFile : bool;
  fsWatchOptions : option (bool * nat)   (* persistent, interval *)
}.

(** A [Tail] object as the component sees it: whether it still watches its
    file, how many times [unwatch()] was called on it, and the ['line']
    listener given to it, which is the closure over the local variable
    [markup] of [tailLogfile] ([None]: no listener yet). *)
Record Tail : Type := mkTail {
  filename : string;
  options : TailOptions;
  isWatching : bool;
  unwatchCalls : nat;
  listener_markup : option string;
  errorListener : bool
}.

Inductive LogEntry : Type :=
| LogDebug (msg : string)
| LogError (msg : string)
| LogErrorValue (e : Error).   (* logger.error(error), the error itself *)

Record Props : Type := mkProps {
  jobStatus : option string;
  logfile : option string;
  finalTraceback : option string;
  pyModuleName : string;
  sidebarFooterElementId : string
}.

(** The component instance: its props, [this.state.logdata], [this.tail]
    (a reference to a [Tail] object, by its index in the store) and
    [this.logPatterns], in the order of its keys. *)
Record Component : Type := mkComponent {
  props : Props;
  logdata : option string;
  tail : option nat;
  logPatterns : list (string * RegExp)
}.

(** The component together with what it acts on: the [Tail] objects
    created so far, the logger's output, and the delays of the pending
    [setTimeout] callbacks (each of them is [() => this.unwatchLogfile()]). *)
Record Sys : Type := mkSys {
  comp : Component;
  tails : list Tail;
  log : list LogEntry;
  timers : list nat
}.

(** What the component takes from its platform and packages. *)
Record Host : Type := mkHost {
  platform : string;                                  (* process.platform *)
  EOL : string;                                       (* os.EOL *)
  sanitizeHtml : string -> SanitizeOptions -> string;
  RegExp_test : string -> string -> bool;             (* new RegExp(src).test(line) *)
  Tail_constructor : string -> TailOptions -> option Error;  (* Some e: throws e *)
  Tail_unwatch : Tail -> option Error                 (* Some e: throws e *)
}.

(** [Object.assign('', logdata)]: the target [''] is turned into a String
    object; a string source adds its characters as properties named by
    their index, [null] adds nothing, and the primitive value of the object
    stays that of the target.  [markup += ...] then takes that primitive
    value. *)
Record StringObject : Type := mkStringObject {
  StringData : string;
  ownProperties : list (nat * ascii)
}.

Fixpoint indexed (n : nat) (s : string) : list (nat * ascii) :=
  match s with
  | EmptyString => []
  | String c s' => (n, c) :: indexed (S n) s'
  end.

Definition Object_assign (target : string) (source : option string) : StringObject :=
  match source with
  | None => mkStringObject target []
  | Some s => mkStringObject target (indexed 0 s)
  end.

Definition toPrimitive (o : StringObject) : string := StringData o.

(** [if (logfile)]: [undefined] and the empty string are falsy. *)
Definition truthy (o : option string) : bool :=
  match o with
  | Some s => negb (String.eqb s EmptyString)
  | None => false
  end.

Definition opt_string_eqb (a b : option string) : bool :=
  match a, b with
  | Some x, Some y => String.eqb x y
  | None, None => true
  | _, _ => false
  end.

(** *** What [render] returns *)

Inductive Handler : Type :=
| handleOpenWorkspace
| terminateInvestProcess.

Inductive Element : Type :=
| Text (s : string)
| Expr (v : option string)
| Button (variant : string) (onClick : Handler) (disabled : bool) (label : string).

Record AlertElement : Type := mkAlert {
  variant : string;
  children : list Element
}.

Record Rendered : Type := mkRendered {
  LogDisplay_logdata : option string;
  Portal_id : string;
  Portal_elId : string;
  Portal_children : option AlertElement
}.

(** *** A small monad for the handlers: state, and [throw] / [try]-[catch] *)

Definition M (A : Type) : Type := Sys -> Sys * (A + Error).

Definition ret {A : Type} (a : A) : M A := fun s => (s, inl a).

Definition bind {A B : Type} (m : M A) (k : A -> M B) : M B :=
  fun s => match m s with
           | (s', inl a) => k a s'
           | (s', inr e) => (s', inr e)
           end.

Definition throw {A : Type} (e : Error) : M A := fun s => (s, inr e).

Definition try_catch {A : Type} (body : M A) (handler : Error -> M A) : M A :=
  fun s => match body s with
           | (s', inl a) => (s', inl a)
           | (s', inr e) => handler e s'
           end.

Definition get : M Sys := fun s => (s, inl s).

Definition modify (f : Sys -> Sys) : M unit := fun s => (f s, inl tt).

Notation "x <- m ;; k" := (bind m (fun x => k))
  (at level 61, m at next level, right associativity).
Notation "m ;;; k" := (bind m (fun _ => k))
  (at level 61, right associativity).

Definition completion {A : Type} (r : Sys * (A + Error)) : Completion :=
  match snd r with
  | inl _ => Returned
  | inr _ => Thrown
  end.

(** Field updates. *)
Definition set_comp (c : Component) (s : Sys) : Sys :=
  mkSys c (tails s) (log s) (timers s).

Definition set_tails (ts : list Tail) (s : Sys) : Sys :=
  mkSys (comp s) ts (log s) (timers s).

Fixpoint update_nth {A : Type} (n : nat) (f : A -> A) (l : list A) : list A :=
  match l, n with
  | [], _ => []
  | x :: l', O => f x :: l'
  | x :: l', S n' => x :: update_nth n' f l'
  end.

Section WithHost.

Variable host : Host.

(** [pattern.test(line)]. *)
Definition test (pattern : RegExp) (line : string) : bool :=
  match pattern with
  | Literal r => re_test r line
  | NewRegExp source => RegExp_test host source line
  end.

(** [markupLine(line, patterns)]: the loop over [Object.entries(patterns)]
    returns at the first pattern that matches. *)
Fixpoint markupLine (line : string) (patterns : list (string * RegExp)) : string :=
  match patterns with
  | (cls, pattern) :: rest =>
      if test pattern line then
        let markup := "<" ++ LOG_TEXT_TAG ++ " class=" ++ dquote ++ cls ++ dquote
                        ++ ">" ++ line ++ "</" ++ LOG_TEXT_TAG ++ ">" in
        sanitizeHtml host markup ALLOWED_HTML_OPTIONS
      else markupLine line rest
  | [] => sanitizeHtml host line ALLOWED_HTML_OPTIONS
  end.

(** The constructor. *)
Definition constructor (p : Props) : Component :=
  mkComponent p None None
    [("invest-log-error", Literal LOG_ERROR_REGEX);
     ("invest-log-primary", NewRegExp (pyModuleName p))].

(** [logger.debug], [logger.error]. *)
Definition logger_debug (msg : string) : M unit :=
  modify (fun s => mkSys (comp s) (tails s) (log s ++ [LogDebug msg])%list (timers s)).

Definition logger_error (msg : string) : M unit :=
  modify (fun s => mkSys (comp s) (tails s) (log s ++ [LogError msg])%list (timers s)).

(** [this.setState({ logdata })]. *)
Definition setState (v : string) : M unit :=
  modify (fun s =>
    let c := comp s in
    set_comp (mkComponent (props c) (Some v) (tail c) (logPatterns c)) s).

(** [new Tail(logfile, options)]: throws, or gives a new object that
    watches the file; the result is the reference to it. *)
Definition new_Tail (file : string) (o : TailOptions) : M nat :=
  match Tail_constructor host file o with
  | Some e => throw e
  | None =>
      s <- get ;;
      modify (set_tails (tails s ++ [mkTail file o true 0 None false])%list) ;;;
      ret (length (tails s))
  end.

(** [this.tail = t]. *)
Definition set_tail (t : nat) : M unit :=
  modify (fun s =>
    let c := comp s in
    set_comp (mkComponent (props c) (logdata c) (Some t) (logPatterns c)) s).

(** [tail.on('line', ...)] with the closure's [markup], and
    [tail.on('error', ...)]. *)
Definition on_line (t : nat) (markup : string) : M unit :=
  modify (fun s => set_tails (update_nth t (fun x =>
    mkTail (filename x) (options x) (isWatching x) (unwatchCalls x)
           (Some markup) (errorListener x)) (tails s)) s).

Definition on_error (t : nat) : M unit :=
  modify (fun s => set_tails (update_nth t (fun x =>
    mkTail (filename x) (options x) (isWatching x) (unwatchCalls x)
           (listener_markup x) true) (tails s)) s).

(** [tailLogfile(logfile)]. *)
Definition tailLogfile (file : string) : M unit :=
  try_catch
    (t <- (if String.eqb (platform host) "win32"
           then new_Tail file (mkTailOptions true true (Some (true, 250)))
           else new_Tail file (mkTailOptions true false None)) ;;
     set_tail t ;;;
     s <- get ;;
     let markup := toPrimitive (Object_assign EmptyString (logdata (comp s))) in
     on_line t markup ;;;
     on_error t)
    (fun error =>
       setState ("Logfile is missing: " ++ EOL host ++ file) ;;;
       logger_error ("Not able to read " ++ file) ;;;
       logger_error (stack error)).

(** [this.tail.unwatch()]: the call is counted; it throws, or the object
    stops watching. *)
Definition Tail_unwatch_call (t : nat) : M unit :=
  s <- get ;;
  match nth_error (tails s) t with
  | None => ret tt
  | Some x =>
      modify (set_tails (update_nth t (fun x =>
        mkTail (filename x) (options x) (isWatching x) (S (unwatchCalls x))
               (listener_markup x) (errorListener x)) (tails s))) ;;;
      match Tail_unwatch host x with
      | Some e => throw e
      | None =>
          modify (fun s => set_tails (update_nth t (fun x =>
            mkTail (filename x) (options x) false (unwatchCalls x)
                   (listener_markup x) (errorListener x)) (tails s)) s)
      end
  end.

Definition tail_filename (s : Sys) (t : nat) : string :=
  match nth_error (tails s) t with
  | Some x => filename x
  | None => "undefined"
  end.

(** [unwatchLogfile()]. *)
Definition unwatchLogfile : M unit :=
  s <- get ;;
  match tail (comp s) with
  | Some t =>
      try_catch
        (logger_debug ("unwatching file: " ++ tail_filename s t) ;;;
         Tail_unwatch_call t)
        (fun error => logger_error (stack error))
  | None => ret tt
  end.

(** [setTimeout(() => this.unwatchLogfile(), 3000)]. *)
Definition setTimeout_unwatchLogfile (delay : nat) : M unit :=
  modify (fun s => mkSys (comp s) (tails s) (log s) (timers s ++ [delay])%list).

(** [componentDidMount()]. *)
Definition componentDidMount : M unit :=
  s <- get ;;
  match logfile (props (comp s)) with
  | Some f => if truthy (Some f) then tailLogfile f else ret tt
  | None => ret tt
  end.

(** [componentDidUpdate(prevProps)]. *)
Definition componentDidUpdate (prevProps : Props) : M unit :=
  s <- get ;;
  let p := props (comp s) in
  (match logfile p with
   | Some f =>
       if truthy (Some f) && negb (opt_string_eqb (logfile prevProps) (Some f))
       then tailLogfile f else ret tt
   | None => ret tt
   end) ;;;
  if negb (opt_string_eqb (jobStatus p) (Some "running"))
     && negb (opt_string_eqb (jobStatus prevProps) (jobStatus p))
  then setTimeout_unwatchLogfile 3000
  else ret tt.

(** [componentWillUnmount()]. *)
Definition componentWillUnmount : M unit := unwatchLogfile.

(** The ['line'] listener of tail [t], called with [data]. *)
Definition line_listener (t : nat) (data : string) : M unit :=
  s <- get ;;
  match nth_error (tails s) t with
  | Some x =>
      match listener_markup x with
      | Some markup =>
          let line := data ++ EOL host in
          let markup := markup ++ markupLine line (logPatterns (comp s)) in
          on_line t markup ;;;
          setState markup
      | None => ret tt
      end
  | None => ret tt
  end.

(** The ['error'] listener: [logger.error(error)]. *)
Definition error_listener (error : Error) : M unit :=
  modify (fun s => mkSys (comp s) (tails s) (log s ++ [LogErrorValue error])%list (timers s)).

(** [render()]: its constants [WorkspaceButton], [CancelButton] and
    [ModelStatusAlert], then the element it returns. *)
Definition WorkspaceButton (p : Props) : Element :=
  Button "outline-dark" handleOpenWorkspace
         (opt_string_eqb (jobStatus p) (Some "running")) "Open Workspace".

Definition CancelButton : Element :=
  Button "outline-dark" terminateInvestProcess false "Cancel Run".

Definition ModelStatusAlert (p : Props) : option AlertElement :=
  if opt_string_eqb (jobStatus p) (Some "running") then
    Some (mkAlert "secondary" [CancelButton])
  else if opt_string_eqb (jobStatus p) (Some "error") then
    Some (mkAlert "danger" [Expr (finalTraceback p); WorkspaceButton p])
  else if opt_string_eqb (jobStatus p) (Some "success") then
    Some (mkAlert "success" [Text "Model Complete"; WorkspaceButton p])
  else None.

Definition render (c : Component) : Rendered :=
  let p := props c in
  mkRendered (logdata c) "log-alert" (sidebarFooterElementId p) (ModelStatusAlert p).

(** *** The component's life as events *)

Inductive Event : Type :=
| Mount
| NewProps (p : Props)            (* the parent renders with new props *)
| Unmount
| Line (t : nat) (data : string)  (* tail [t] emits a line *)
| TailError (t : nat) (e : Error)
| TimerFires.                     (* the oldest pending timeout fires *)

Definition set_props (p : Props) : M unit :=
  modify (fun s =>
    let c := comp s in
    set_comp (mkComponent p (logdata c) (tail c) (logPatterns c)) s).

Definition pop_timer : M bool :=
  fun s => match timers s with
           | [] => (s, inl false)
           | _ :: rest => (mkSys (comp s) (tails s) (log s) rest, inl true)
           end.

Definition watching (s : Sys) (t : nat) : bool :=
  match nth_error (tails s) t with
  | Some x => isWatching x
  | None => false
  end.

Definition handle (e : Event) : M unit :=
  match e with
  | Mount => componentDidMount
  | NewProps p =>
      s <- get ;;
      set_props p ;;;
      componentDidUpdate (props (comp s))
  | Unmount => componentWillUnmount
  | Line t data =>
      s <- get ;;
      if watching s t then line_listener t data else ret tt
  | TailError t e => error_listener e
  | TimerFires =>
      fired <- pop_timer ;;
      if fired then unwatchLogfile else ret tt
  end.

Definition step (s : Sys) (e : Event) : Sys := fst (handle e s).

Definition run (s : Sys) (es : list Event) : Sys := fold_left step es s.

(** A new component with props [p], before it is mounted. *)
Definition initial (p : Props) : Sys := mkSys (constructor p) [] [] [].

(** The [Tail] objects that still watch their file. *)
Definition active_tails (s : Sys) : list Tail := filter isWatching (tails s).

(** The lines [ds] arriving on tail [t], one after the other. *)
Definition deliver (s : Sys) (t : nat) (ds : list string) : Sys :=
  run s (map (Line t) ds).

(** The markup of one delivered line: the line with the end-of-line
    sequence, through [markupLine]. *)
Definition line_markup (c : Component) (data : string) : string :=
  markupLine (data ++ EOL host) (logPatterns c).

End WithHost.

(** The strings of a list, one after the other. *)
Fixpoint join (l : list string) : string :=
  match l with
  | [] => EmptyString
  | x :: l' => x ++ join l'
  end.

(** [<span class="cls">line</span>], the markup of a classified line. *)
Definition wrap (cls line : string) : string :=
  "<" ++ LOG_TEXT_TAG ++ " class=" ++ dquote ++ cls ++ dquote
    ++ ">" ++ line ++ "</" ++ LOG_TEXT_TAG ++ ">".

(** No [Tail] object had [unwatch()] called on it more than once. *)
Definition released_at_most_once (s : Sys) : Prop :=
  Forall (fun t => unwatchCalls t <= 1) (tails s).

(** The number of [unwatch()] calls made on tail [t] so far. *)
Definition unwatch_calls (s : Sys) (t : nat) : nat :=
  match nth_error (tails s) t with
  | Some x => unwatchCalls x
  | None => 0
  end.

(** *** A host to run the component on examples

    The sanitizer stand-in returns its input, [new RegExp(source)] is taken
    to look for [source] literally, [new Tail] throws for the one file
    ["missing.txt"], and [unwatch()] does not throw. *)
Definition LF : string := String (ascii_of_nat 10) EmptyString.

Definition example_host : Host :=
  mkHost "linux" LF
         (fun s _ => s)
         (fun source line => re_test (lit source) line)
         (fun file _ => if String.eqb file "missing.txt"
                        then Some (mkError "Error: ENOENT") else None)
         (fun _ => None).

Definition example_props (status : option string) (file : option string) : Props :=
  mkProps status file None "natcap.invest.carbon" "footer".

(** A component mounted on "a.log" while the job runs. *)
Definition example_mounted : Sys :=
  step example_host (initial (example_props (Some "running") (Some "a.log"))) Mount.

(** A component about to be mounted on a log file that cannot be read. *)
Definition example_missing : Sys :=
  initial (example_props (Some "running") (Some "missing.txt")).

(** Mounted on "a.log"; the job ends, which sets the teardown timer; the
    component is unmounted; the timer fires. *)
Definition example_teardown_twice : Sys :=
  run example_host (initial (example_props (Some "running") (Some "a.log")))
      [Mount; NewProps (example_props (Some "success") (Some "a.log"));
       Unmount; TimerFires].

(** Mounted on "a.log"; the [logfile] prop changes to "b.log" while the
    job runs. *)
Definition example_logfile_change : Sys :=
  run example_host (initial (example_props (Some "running") (Some "a.log")))
      [Mount; NewProps (example_props (Some "running") (Some "b.log"))].

End LogTab.

(** ** Drag events on the form and on its inputs *)

Module ArgsFormDispatch.

Import ArgsForm.

(** A drag event as the page sends it.  An event on the form, or on an
    element inside it that has no handler of its own for it, reaches the
    form's handler.  A drop on an input reaches [inputDropHandler] first,
    which every input is given ([inputDropHandler={this.inputDropHandler}]
    in [render]), and goes on to the form's [onDrop] only if its
    propagation has not been stopped. *)
Inductive FormEvent : Type :=
| OnForm (e : FormDrag)
| DropOnInput (name : string) (fs : list File).

(** The drop event on the input named [name]. *)
Definition input_event (name : string) (fs : list File) : DragEvent :=
  mkDragEvent false false "none" fs name EmptyString.

Section Dispatch.

Variable ParentState : Type.
Variable fetchDatastackFromFile : string -> option Datastack.
Variable props : Props ParentState.

Definition dispatch_step (st : Instance * World ParentState) (e : FormEvent)
  : Instance * World ParentState :=
  match e with
  | OnForm e => drag_step fetchDatastackFromFile props st e
  | DropOnInput name fs =>
      let (i, w) := st in
      let r := inputDropHandler props i w (input_event name fs) in
      if propagationStopped (r_event r)
      then (r_inst r, r_world r)
      else let r' := onArchiveDragDrop fetchDatastackFromFile props
                       (r_inst r) (r_world r) (r_event r) in
           (r_inst r', r_world r')
  end.

Definition dispatch_run (st : Instance * World ParentState) (es : list FormEvent)
  : Instance * World ParentState :=
  fold_left dispatch_step es st.

End Dispatch.

Arguments dispatch_step {ParentState} _ _ _ _.
Arguments dispatch_run {ParentState} _ _ _ _.

(** A file is dragged over the form and over an input of it, which sends
    drag-enter for the form, drag-enter for the input and drag-leave for
    the element left; then it is dropped on the input. *)
Definition drop_on_field (name : string) (fs : list File) : list FormEvent :=
  [OnForm DragEnter; OnForm DragEnter; OnForm DragLeave; DropOnInput name fs].

End ArgsFormDispatch.

(** ** More examples for ArgsForm *)

Module ArgsFormExamples.

Import ArgsForm.

(** A drop of one file that the parser cannot read. *)
Definition example_drop_unreadable : DragEvent :=
  blank_event [mkFile "/data/notes.txt"].

(** The form after a drag-leave with no drag-enter before it and two
    drag-enters. *)
Definition example_unnested_drag : Instance :=
  fst (drag_run example_fetch example_form_props (constructor, example_world)
         [DragLeave; DragEnter; DragEnter]).

End ArgsFormExamples.

(** ** What [ArgsForm.render] builds *)

Module ArgsFormView.

Import ArgsForm.

(** A plain JavaScript object used as a map: its own properties in their
    order, each holding an object ([Some]), or [null] or [undefined]
    ([None]). *)
Definition Obj (A : Type) : Type := list (string * option A).

(** The own property [k] of [o], if there is one. *)
Fixpoint lookup {A : Type} (k : string) (o : Obj A) : option (option A) :=
  match o with
  | [] => None
  | (k', v) :: o' => if String.eqb k k' then Some v else lookup k o'
  end.

(** The names that a plain object inherits from [Object.prototype]. *)
Definition Object_prototype_names : list string :=
  ["constructor"; "hasOwnProperty"; "isPrototypeOf"; "propertyIsEnumerable";
   "toLocaleString"; "toString"; "valueOf"; "__proto__";
   "__defineGetter__"; "__defineSetter__"; "__lookupGetter__"; "__lookupSetter__"].

Definition inherited (k : string) : bool :=
  existsb (String.eqb k) Object_prototype_names.

(** The value of [o[k]]. *)
Inductive Member (A : Type) : Type :=
| Undefined                (* no own property, and not an inherited name *)
| Null                     (* an own property holding null or undefined *)
| Inherited                (* a member of Object.prototype *)
| Own (a : A).             (* an own property holding an object *)

Arguments Undefined {A}.
Arguments Null {A}.
Arguments Inherited {A}.
Arguments Own {A} _.

(** [o[k]]: an own property comes before an inherited one. *)
Definition get {A : Type} (k : string) (o : Obj A) : Member A :=
  match lookup k o with
  | Some (Some a) => Own a
  | Some None => Null
  | None => if inherited k then Inherited else Undefined
  end.

(** [o[k]] is [undefined] or [null], said of the own properties of [o]:
    the own entry for [k] is [null], or there is no own entry for [k] and
    [k] is not an inherited name. *)
Definition missing {A : Type} (k : string) (o : Obj A) : Prop :=
  lookup k o = Some None \/ (lookup k o = None /\ inherited k = false).

(** Reading a property of [undefined] or [null] throws a TypeError. *)
Definition nullish {A : Type} (m : Member A) : bool :=
  match m with
  | Undefined | Null => true
  | Inherited | Own _ => false
  end.

(** [m.field] for a value that is not nullish: the field of an own object;
    [undefined] ([None]) for a member of [Object.prototype], which has
    none of the fields read here. *)
Definition read {A B : Type} (field : A -> option B) (m : Member A) : option B :=
  match m with
  | Own a => field a
  | _ => None
  end.

(** The shapes of the prop types. *)
Record ArgSpec : Type := mkArgSpec {
  spec_name : option string;
  spec_type : option string
}.

Record ArgValue : Type := mkArgValue {
  value : option Value;
  touched : option bool;
  ui_option : option string
}.

Record ArgValidation : Type := mkArgValidation {
  validationMessage : option string;
  valid : option bool
}.

Record ViewProps : Type := mkViewProps {
  sortedArgKeys : list (list string);
  argsSpec : Obj ArgSpec;
  argsValues : Obj ArgValue;
  argsValidation : Obj ArgValidation
}.

(** The methods of the form that every input is given. *)
Inductive FieldHandler : Type :=
| handleChange_method
| inputDropHandler_method
| handleBoolChange_method
| selectFile_method.

(** An [<ArgInput ... />] element with its props. *)
Record ArgInput : Type := mkArgInput {
  input_key : string;
  input_argkey : string;
  input_argSpec : Member ArgSpec;
  input_value : option Value;
  input_touched : option bool;
  input_ui_option : option string;
  input_isValid : option bool;
  input_validationMessage : option string;
  input_handleChange : FieldHandler;
  input_inputDropHandler : FieldHandler;
  input_handleBoolChange : FieldHandler;
  input_selectFile : FieldHandler
}.

(** A [<div className="arg-group" key={k}>] with its children. *)
Record ArgGroup : Type := mkArgGroup {
  group_key : nat;
  group_items : list ArgInput
}.

(** The [<Form>] element that [render] returns. *)
Record FormElement : Type := mkFormElement {
  form_testid : string;
  form_className : string;
  form_validated : bool;
  form_children : list ArgGroup
}.

(** One [<ArgInput>]: reading [.value] of [argsValues[argkey]], or [.valid]
    of [argsValidation[argkey]], throws a TypeError when that is
    [undefined] or [null] ([None] here); [argsSpec[argkey]] is passed on
    as it is. *)
Definition render_input (p : ViewProps) (argkey : string) : option ArgInput :=
  let v := get argkey (argsValues p) in
  let vd := get argkey (argsValidation p) in
  if nullish v then None
  else if nullish vd then None
  else Some (mkArgInput argkey argkey (get argkey (argsSpec p))
               (read value v) (read touched v) (read ui_option v)
               (read valid vd) (read validationMessage vd)
               handleChange_method inputDropHandler_method
               handleBoolChange_method selectFile_method).

(** [groupArray.forEach((argkey) => groupItems.push(...))]. *)
Fixpoint render_group (p : ViewProps) (groupArray : list string)
                      (groupItems : list ArgInput) : option (list ArgInput) :=
  match groupArray with
  | [] => Some groupItems
  | argkey :: rest =>
      match render_input p argkey with
      | None => None
      | Some x => render_group p rest (groupItems ++ [x])
      end
  end.

(** [sortedArgKeys.forEach((groupArray) => { k += 1; ...; formItems.push(...) })]. *)
Fixpoint render_groups (p : ViewProps) (groups : list (list string)) (k : nat)
                       (formItems : list ArgGroup) : option (list ArgGroup) :=
  match groups with
  | [] => Some formItems
  | groupArray :: rest =>
      let k := k + 1 in
      match render_group p groupArray [] with
      | None => None
      | Some groupItems =>
          render_groups p rest k (formItems ++ [mkArgGroup k groupItems])
      end
  end.

(** [render()]: [None] when it throws. *)
Definition render (p : ViewProps) : option FormElement :=
  match render_groups p (sortedArgKeys p) 0 [] with
  | None => None
  | Some formItems => Some (mkFormElement "setup-form" "args-form" false formItems)
  end.

Definition example_view : ViewProps :=
  mkViewProps
    [["workspace_dir"; "results_suffix"]; []; ["n_workers"; "toString"]]
    [("workspace_dir", Some (mkArgSpec (Some "Workspace") (Some "directory")));
     ("n_workers", Some (mkArgSpec (Some "Workers") (Some "number")))]
    [("workspace_dir", Some (mkArgValue (Some (VStr "/tmp/ws")) (Some true) None));
     ("results_suffix", Some (mkArgValue (Some (VStr EmptyString)) (Some false) None));
     ("n_workers", Some (mkArgValue (Some (VStr "1")) (Some false) None))]
    [("workspace_dir", Some (mkArgValidation None (Some true)));
     ("results_suffix", Some (mkArgValidation None (Some true)));
     ("n_workers", Some (mkArgValidation (Some "must be a number") (Some false)))].

End ArgsFormView.

(** ** States of LogTab over its life *)

Module LogTabLife.

Import LogTab.

(** Tail [u] watches its file and is not the one [this.tail] refers to. *)
Definition orphaned (s : Sys) (u : nat) : Prop :=
  watching s u = true /\ tail (comp s) <> Some u.

(** [this.tail] is unset and no [Tail] object exists, or it refers to the
    [Tail] object created last. *)
Definition held_is_last (s : Sys) : Prop :=
  match tail (comp s) with
  | None => tails s = []
  | Some t => length (tails s) = S t
  end.

(** What [componentDidUpdate] tests before it sets the teardown timer. *)
Definition leaves_running (prev next : Props) : bool :=
  negb (opt_string_eqb (jobStatus next) (Some "running"))
  && negb (opt_string_eqb (jobStatus prev) (jobStatus next)).

(** What [componentDidUpdate] tests before it tails the log file. *)
Definition changes_logfile (prev next : Props) : bool :=
  truthy (logfile next) && negb (opt_string_eqb (logfile prev) (logfile next)).

(** The logfile changes, the job ends, the teardown timer fires and the
    component is unmounted. *)
Definition example_change_then_teardown : Sys :=
  run example_host example_logfile_change
      [NewProps (example_props (Some "success") (Some "b.log")); TimerFires; Unmount].

(** The job ends while two lines arrive around the change of status, and
    the teardown timer fires. *)
Definition example_job_ends : Sys :=
  run example_host (initial (example_props (Some "running") (Some "a.log")))
      ([Mount] ++ map (Line 0) ["hello"] ++
       [NewProps (example_props (Some "success") (Some "a.log"))] ++
       map (Line 0) ["bye"] ++ [TimerFires]).

(** The job ends, and it is run again on a new log file before the
    teardown timer of the first run fires. *)
Definition example_rerun_before_timer : Sys :=
  run example_host (initial (example_props (Some "running") (Some "a.log")))
      [Mount; NewProps (example_props (Some "success") (Some "a.log"));
       NewProps (example_props (Some "running") (Some "b.log")); TimerFires].

End LogTabLife.

(** ** What the regular expressions mean *)

Module RegexSem.

Import LogTab.

Definition is_empty (s : string) : bool :=
  match s with
  | EmptyString => true
  | String _ _ => false
  end.

(** Repetition: a sequence of non-empty matches, the first of which may
    stand at the start of the input. *)
Inductive star (P : bool -> string -> Prop) : bool -> string -> Prop :=
| star_nil : forall st, star P st EmptyString
| star_cons : forall st c s1 s2,
    P st (String c s1) -> star P false s2 -> star P st (String c s1 ++ s2).

(** [den r st s]: the expression [r] matches exactly the string [s], which
    stands at the start of the input when [st] holds. *)
Fixpoint den (r : re) (st : bool) (s : string) : Prop :=
  match r with
  | Void => False
  | Eps => s = EmptyString
  | Bol => st = true /\ s = EmptyString
  | Cls p => exists c, s = String c EmptyString /\ p c = true
  | Alt a b => den a st s \/ den b st s
  | Seq a b => exists s1 s2, s = s1 ++ s2 /\ den a st s1 /\ den b (st && is_empty s1) s2
  | Star a => star (den a) st s
  end.

(** The character classes of [LOG_ERROR_REGEX]. *)
Definition is_upper (c : ascii) : bool := in_range 65 90 c.
Definition is_lower (c : ascii) : bool := in_range 97 122 c.
Definition is_space (c : ascii) : bool :=
  in_range 9 13 c || Nat.eqb (nat_of_ascii c) 32.

Fixpoint all_chars (p : ascii -> bool) (s : string) : bool :=
  match s with
  | EmptyString => true
  | String c s' => p c && all_chars p s'
  end.

Definition starts_with_space (s : string) : bool :=
  match s with
  | EmptyString => false
  | String c _ => is_space c
  end.

(** [w] occurs in [s]. *)
Definition occurs (w s : string) : Prop := exists a b, s = a ++ w ++ b.

(** A capital letter, any number of small letters, then "Error", somewhere
    in [s]. *)
Definition has_error_name (s : string) : Prop :=
  exists a u l b, s = a ++ String u l ++ "Error" ++ b /\
                  is_upper u = true /\ all_chars is_lower l = true.

End RegexSem.

(** * Properties of ArgsForm *)

Section ArgsFormFacts.

Import ArgsForm.

Lemma classList_contains_add (c : string) (l : ClassList) :
  classList_contains c (classList_add c l) = true.
Proof.
  unfold classList_add.
  destruct (classList_contains c l) eqn:E; [exact E|].
  unfold classList_contains. rewrite existsb_app. simpl.
  rewrite String.eqb_refl. now rewrite orb_true_r.
Qed.

Lemma classList_contains_remove (c : string) (l : ClassList) :
  classList_contains c (classList_remove c l) = false.
Proof.
  unfold classList_contains, classList_remove.
  induction l as [|x l IH]; simpl; [reflexivity|].
  destruct (String.eqb c x) eqn:E; simpl; [exact IH|].
  now rewrite E.
Qed.

Variable ParentState : Type.
Variable fetch : string -> option Datastack.
Variable props : Props ParentState.

(** The two drag handlers and the drop handler, as they act on the
    counter and the indicator. *)
Lemma dragEnterHandler_spec (i : Instance) (ev : DragEvent) :
  let i' := fst (dragEnterHandler i ev) in
  dragDepth i' = (dragDepth i + 1)%Z /\ dragging i' = true.
Proof.
  unfold dragEnterHandler, dragging. simpl. split; [reflexivity|].
  destruct (classList_contains "dragging" (classList i)) eqn:E; simpl.
  - exact E.
  - apply classList_contains_add.
Qed.

Lemma dragLeaveHandler_spec (i : Instance) (ev : DragEvent) :
  let i' := fst (dragLeaveHandler i ev) in
  dragDepth i' = (dragDepth i - 1)%Z /\
  dragging i' = if (dragDepth i - 1 <=? 0)%Z then false else dragging i.
Proof.
  unfold dragLeaveHandler, dragging. simpl. split; [reflexivity|].
  destruct (dragDepth i - 1 <=? 0)%Z; [apply classList_contains_remove|reflexivity].
Qed.

Lemma onArchiveDragDrop_resets (i : Instance) (w : World ParentState) (ev : DragEvent) :
  let i' := r_inst (onArchiveDragDrop fetch props i w ev) in
  dragDepth i' = 0%Z /\ dragging i' = false.
Proof.
  unfold onArchiveDragDrop. simpl.
  assert (H : dragging (mkInstance 0 (classList_remove "dragging" (classList i))) = false)
    by apply classList_contains_remove.
  destruct (negb (Nat.eqb (length (files ev)) 1)); simpl; [now split|].
  destruct (files ev) as [|f fs]; simpl; [now split|].
  destruct (fetch (path f)) as [ds|]; simpl; [|now split].
  destruct (String.eqb (module_name ds) (pyModuleName props)); simpl; now split.
Qed.

(** A drop of a file list whose length is not one: the alert, and nothing
    else. *)
Lemma onArchiveDragDrop_not_one (i : Instance) (w : World ParentState) (ev : DragEvent) :
  Nat.eqb (length (files ev)) 1 = false ->
  let r := onArchiveDragDrop fetch props i w ev in
  r_world r = mkWorld (parent w) (calls w ++ [Alert "only drop one file at a time."])%list /\
  r_completion r = Thrown.
Proof.
  intros H. unfold onArchiveDragDrop. simpl. rewrite H. simpl. now split.
Qed.

Lemma drag_run_cons (st : Instance * World ParentState) (e : FormDrag)
      (es : list FormDrag) :
  drag_run fetch props st (e :: es)
    = drag_run fetch props (drag_step fetch props st e) es.
Proof. reflexivity. Qed.

Lemma drag_run_inv (es : list FormDrag) :
  forall (n : nat) (i : Instance) (w : World ParentState),
    drag_inv n i -> nested n es = true ->
    exists m, drag_inv m (fst (drag_run fetch props (i, w) es)).
Proof.
  induction es as [|e es IH]; intros n i w [Hd Hc] Hn.
  - exists n. now split.
  - rewrite drag_run_cons. destruct e as [| |fs]; simpl in Hn.
    + change (drag_step fetch props (i, w) DragEnter)
        with (fst (dragEnterHandler i (blank_event [])), w).
      apply (IH (S n)); [|exact Hn].
      destruct (dragEnterHandler_spec i (blank_event [])) as [H1 H2].
      split.
      * rewrite H1, Hd. lia.
      * rewrite H2. symmetry. apply Z.ltb_lt. lia.
    + destruct n as [|m]; [discriminate|].
      change (drag_step fetch props (i, w) DragLeave)
        with (fst (dragLeaveHandler i (blank_event [])), w).
      apply (IH m); [|exact Hn].
      destruct (dragLeaveHandler_spec i (blank_event [])) as [H1 H2].
      split.
      * rewrite H1, Hd. lia.
      * rewrite H2, Hd, Hc.
        destruct (Z.leb_spec (Z.of_nat (S m) - 1) 0);
          destruct (Z.ltb_spec 0 (Z.of_nat m));
          destruct (Z.ltb_spec 0 (Z.of_nat (S m))); try reflexivity; lia.
    + change (drag_step fetch props (i, w) (Drop fs))
        with (r_inst (onArchiveDragDrop fetch props i w (blank_event fs)),
              r_world (onArchiveDragDrop fetch props i w (blank_event fs))).
      apply (IH 0%nat); [|exact Hn].
      destruct (onArchiveDragDrop_resets i w (blank_event fs)) as [H1 H2].
      split; [exact H1|exact H2].
Qed.

End ArgsFormFacts.

(** C2: dropping exactly one datastack file on the form, when the parser
    resolves: if the file's module name equals the form's [pyModuleName] the
    parent's argument state is replaced through [batchUpdateArgs] with the
    file's [args] and the handler returns; otherwise the only call besides
    the parser is an alert whose text names the file's module and the
    form's module, no callback is invoked, the argument state is unchanged
    and the handler throws. *)
Theorem onArchiveDragDrop_one_file :
  forall (ParentState : Type) (fetch : string -> option ArgsForm.Datastack)
         (props : ArgsForm.Props ParentState) (i : ArgsForm.Instance)
         (w : ArgsForm.World ParentState) (ev : ArgsForm.DragEvent)
         (f : ArgsForm.File) (ds : ArgsForm.Datastack),
    ArgsForm.files ev = [f] ->
    fetch (ArgsForm.path f) = Some ds ->
    let r := ArgsForm.onArchiveDragDrop fetch props i w ev in
    let file_module := ArgsForm.module_name ds in
    let form_module := ArgsForm.pyModuleName props in
    if String.eqb file_module form_module then
      ArgsForm.parent (ArgsForm.r_world r)
        = ArgsForm.batchUpdateArgs props (ArgsForm.args ds) (ArgsForm.parent w) /\
      ArgsForm.calls (ArgsForm.r_world r)
        = (ArgsForm.calls w ++ [ArgsForm.FetchDatastackFromFile (ArgsForm.path f);
                                ArgsForm.BatchUpdateArgs (ArgsForm.args ds)])%list /\
      ArgsForm.r_completion r = Returned
    else
      ArgsForm.parent (ArgsForm.r_world r) = ArgsForm.parent w /\
      ArgsForm.calls (ArgsForm.r_world r)
        = (ArgsForm.calls w ++
            [ArgsForm.FetchDatastackFromFile (ArgsForm.path f);
             ArgsForm.Alert ("Parameter/Log file for " ++ file_module
                             ++ " does not match this model: " ++ form_module)])%list /\
      ArgsForm.r_completion r = Thrown.
Proof.
  intros P fetch props i w ev f ds Hf Hd. cbv zeta.
  unfold ArgsForm.onArchiveDragDrop. simpl. rewrite Hf. simpl. rewrite Hd.
  destruct (String.eqb (ArgsForm.module_name ds) (ArgsForm.pyModuleName props));
    simpl; rewrite <- app_assoc; simpl; repeat split.
Qed.

Lemma onArchiveDragDrop_one_file_witness :
  ArgsForm.parent
    (ArgsForm.r_world
       (ArgsForm.onArchiveDragDrop ArgsForm.example_fetch ArgsForm.example_form_props
          ArgsForm.constructor ArgsForm.example_world ArgsForm.example_drop_one))
  = ArgsForm.args ArgsForm.example_carbon.
Proof.
  pose proof (onArchiveDragDrop_one_file ArgsForm.Args ArgsForm.example_fetch
                ArgsForm.example_form_props ArgsForm.constructor ArgsForm.example_world
                ArgsForm.example_drop_one (ArgsForm.mkFile "/data/carbon.json")
                ArgsForm.example_carbon eq_refl eq_refl) as H.
  simpl in H. destruct H as [H _]. exact H.
Defined.

(** C7: dropping more than one file on the form raises the alert "only drop
    one file at a time." and throws; the parser and the callbacks are not
    called and the argument state is unchanged. *)
Theorem onArchiveDragDrop_several_files :
  forall (ParentState : Type) (fetch : string -> option ArgsForm.Datastack)
         (props : ArgsForm.Props ParentState) (i : ArgsForm.Instance)
         (w : ArgsForm.World ParentState) (ev : ArgsForm.DragEvent),
    1 < length (ArgsForm.files ev) ->
    let r := ArgsForm.onArchiveDragDrop fetch props i w ev in
    ArgsForm.calls (ArgsForm.r_world r)
      = (ArgsForm.calls w ++ [ArgsForm.Alert "only drop one file at a time."])%list /\
    ArgsForm.parent (ArgsForm.r_world r) = ArgsForm.parent w /\
    ArgsForm.r_completion r = Thrown.
Proof.
  intros P fetch props i w ev H.
  destruct (onArchiveDragDrop_not_one P fetch props i w ev) as [H1 H2].
  - apply Nat.eqb_neq. lia.
  - cbv zeta. rewrite H1, H2. repeat split.
Qed.

Lemma onArchiveDragDrop_several_files_witness :
  ArgsForm.calls
    (ArgsForm.r_world
       (ArgsForm.onArchiveDragDrop ArgsForm.example_fetch ArgsForm.example_form_props
          ArgsForm.constructor ArgsForm.example_world ArgsForm.example_drop_two))
  = [ArgsForm.Alert "only drop one file at a time."].
Proof.
  apply (onArchiveDragDrop_several_files ArgsForm.Args ArgsForm.example_fetch
           ArgsForm.example_form_props ArgsForm.constructor ArgsForm.example_world
           ArgsForm.example_drop_two).
  simpl. lia.
Defined.

(** C10: a drop whose file list has any length other than one, the empty
    list included, raises the alert "only drop one file at a time." and
    throws before the parser or a callback is called; the argument state is
    unchanged. *)
Theorem onArchiveDragDrop_no_file :
  forall (ParentState : Type) (fetch : string -> option ArgsForm.Datastack)
         (props : ArgsForm.Props ParentState) (i : ArgsForm.Instance)
         (w : ArgsForm.World ParentState) (ev : ArgsForm.DragEvent),
    length (ArgsForm.files ev) <> 1 ->
    let r := ArgsForm.onArchiveDragDrop fetch props i w ev in
    let r0 := ArgsForm.onArchiveDragDrop fetch props i w ArgsForm.example_drop_none in
    ArgsForm.r_world r
      = ArgsForm.mkWorld (ArgsForm.parent w)
          (ArgsForm.calls w ++ [ArgsForm.Alert "only drop one file at a time."])%list /\
    ArgsForm.r_completion r = Thrown /\
    ArgsForm.r_world r0 = ArgsForm.r_world r /\
    ArgsForm.r_completion r0 = Thrown.
Proof.
  intros P fetch props i w ev H.
  destruct (onArchiveDragDrop_not_one P fetch props i w ev) as [H1 H2].
  - apply Nat.eqb_neq. exact H.
  - cbv zeta. rewrite H1, H2. repeat split.
Qed.

Lemma onArchiveDragDrop_no_file_witness :
  ArgsForm.r_world
    (ArgsForm.onArchiveDragDrop ArgsForm.example_fetch ArgsForm.example_form_props
       ArgsForm.constructor ArgsForm.example_world ArgsForm.example_drop_none)
  = ArgsForm.mkWorld (ArgsForm.parent ArgsForm.example_world)
      [ArgsForm.Alert "only drop one file at a time."].
Proof.
  apply (onArchiveDragDrop_no_file ArgsForm.Args ArgsForm.example_fetch
           ArgsForm.example_form_props ArgsForm.constructor ArgsForm.example_world
           ArgsForm.example_drop_none).
  simpl. lia.
Defined.

(** The form's own drag handlers.  A drag-enter adds one to the depth
    counter and shows the "dragging" indicator; a drag-leave takes one off
    the counter and removes the indicator when the counter is then zero or
    less; a drop handled by the form sets the counter to zero and removes
    the indicator.  After any nested sequence of these events (a leave
    only after an enter not yet left, a drop ending the drag) the counter
    is not negative and the indicator is present exactly when the counter
    is positive.  After drag-enter, drag-enter, drag-leave the depth is 1
    and the indicator is present; one more drag-leave or a drop handled by
    the form removes it. *)
Theorem dragging_indicator_follows_depth :
  forall (ParentState : Type) (fetch : string -> option ArgsForm.Datastack)
         (props : ArgsForm.Props ParentState) (w : ArgsForm.World ParentState)
         (es : list ArgsForm.FormDrag),
    ArgsForm.nested 0 es = true ->
    let after es := fst (ArgsForm.drag_run fetch props (ArgsForm.constructor, w) es) in
    (0 <= ArgsForm.dragDepth (after es))%Z /\
    ArgsForm.dragging (after es) = (0 <? ArgsForm.dragDepth (after es))%Z /\
    (forall i ev,
        let i' := fst (ArgsForm.dragEnterHandler i ev) in
        ArgsForm.dragDepth i' = (ArgsForm.dragDepth i + 1)%Z /\
        ArgsForm.dragging i' = true) /\
    (forall i ev,
        let i' := fst (ArgsForm.dragLeaveHandler i ev) in
        ArgsForm.dragDepth i' = (ArgsForm.dragDepth i - 1)%Z /\
        ArgsForm.dragging i'
          = if (ArgsForm.dragDepth i - 1 <=? 0)%Z then false else ArgsForm.dragging i) /\
    (forall i w' ev,
        let i' := ArgsForm.r_inst (ArgsForm.onArchiveDragDrop fetch props i w' ev) in
        ArgsForm.dragDepth i' = 0%Z /\ ArgsForm.dragging i' = false) /\
    ArgsForm.dragDepth (after [ArgsForm.DragEnter; ArgsForm.DragEnter; ArgsForm.DragLeave]) = 1%Z /\
    ArgsForm.dragging (after [ArgsForm.DragEnter; ArgsForm.DragEnter; ArgsForm.DragLeave]) = true /\
    ArgsForm.dragging (after [ArgsForm.DragEnter; ArgsForm.DragEnter; ArgsForm.DragLeave;
                              ArgsForm.DragLeave]) = false /\
    (forall fs,
        ArgsForm.dragging (after [ArgsForm.DragEnter; ArgsForm.DragEnter; ArgsForm.DragLeave;
                                  ArgsForm.Drop fs]) = false).
Proof.
  intros P fetch props w es Hn. cbv zeta.
  destruct (drag_run_inv P fetch props es 0 ArgsForm.constructor w) as [m [Hd Hc]];
    [split; reflexivity | exact Hn |].
  split; [rewrite Hd; lia|].
  split; [rewrite Hc, Hd; reflexivity|].
  split; [intros i ev; apply (dragEnterHandler_spec i ev)|].
  split; [intros i ev; apply (dragLeaveHandler_spec i ev)|].
  split; [intros i w' ev; apply onArchiveDragDrop_resets|].
  split; [reflexivity|].
  split; [reflexivity|].
  split; [reflexivity|].
  intros fs.
  change (ArgsForm.dragging
            (ArgsForm.r_inst
               (ArgsForm.onArchiveDragDrop fetch props
                  (fst (ArgsForm.drag_run fetch props (ArgsForm.constructor, w)
                          [ArgsForm.DragEnter; ArgsForm.DragEnter; ArgsForm.DragLeave]))
                  w (ArgsForm.blank_event fs))) = false).
  apply onArchiveDragDrop_resets.
Qed.

Lemma dragging_indicator_follows_depth_witness :
  ArgsForm.dragging ArgsForm.example_nested_drag
  = (0 <? ArgsForm.dragDepth ArgsForm.example_nested_drag)%Z.
Proof.
  apply (dragging_indicator_follows_depth ArgsForm.Args ArgsForm.example_fetch
           ArgsForm.example_form_props ArgsForm.example_world
           [ArgsForm.DragEnter; ArgsForm.DragEnter; ArgsForm.DragLeave]).
  reflexivity.
Defined.

(** C8 at the failing input: a file dragged over the form and over one of
    its inputs and dropped on the input.  [inputDropHandler] stops the
    propagation of the drop, so the form's drop handler does not run, and
    it neither resets the depth counter nor removes the "dragging"
    indicator: after the drop the counter is still 1 and the indicator is
    still present, for every file list.  No drop on an input ever changes
    the counter or the indicator. *)
Theorem field_drop_keeps_dragging_indicator :
  forall (ParentState : Type) (fetch : string -> option ArgsForm.Datastack)
         (props : ArgsForm.Props ParentState) (w : ArgsForm.World ParentState)
         (name : string) (fs : list ArgsForm.File),
    let i := fst (ArgsFormDispatch.dispatch_run fetch props (ArgsForm.constructor, w)
                    (ArgsFormDispatch.drop_on_field name fs)) in
    ArgsForm.dragDepth i = 1%Z /\
    ArgsForm.dragging i = true /\
    (forall j w',
        fst (ArgsFormDispatch.dispatch_step fetch props (j, w')
               (ArgsFormDispatch.DropOnInput name fs)) = j).
Proof.
  intros P fetch props w name fs. cbv zeta.
  split; [|split].
  - unfold ArgsFormDispatch.drop_on_field, ArgsFormDispatch.dispatch_run. simpl.
    destruct fs; reflexivity.
  - unfold ArgsFormDispatch.drop_on_field, ArgsFormDispatch.dispatch_run. simpl.
    destruct fs; reflexivity.
  - intros j w'. simpl. destruct fs; reflexivity.
Qed.

(** * Properties of LogTab *)

Section LogTabFacts.

Import LogTab.

Variable host : Host.

Lemma update_nth_length {A : Type} (n : nat) (f : A -> A) (l : list A) :
  length (update_nth n f l) = length l.
Proof.
  revert n; induction l as [|x l IH]; intros [|n]; simpl; auto.
Qed.

Lemma update_nth_app_last {A : Type} (f : A -> A) (l : list A) (x : A) :
  update_nth (length l) f (l ++ [x]) = (l ++ [f x])%list.
Proof.
  induction l as [|y l IH]; simpl; [reflexivity|now rewrite IH].
Qed.

Lemma nth_error_update_nth {A : Type} (n m : nat) (f : A -> A) (l : list A) :
  nth_error (update_nth n f l) m
    = if Nat.eqb n m then option_map f (nth_error l m) else nth_error l m.
Proof.
  revert n m; induction l as [|x l IH]; intros n m.
  - destruct n, m; simpl; try reflexivity; destruct (Nat.eqb _ _); reflexivity.
  - destruct n, m; simpl; try reflexivity. apply IH.
Qed.

Lemma update_nth_update_nth {A : Type} (n : nat) (f g : A -> A) (l : list A) :
  update_nth n f (update_nth n g l) = update_nth n (fun x => f (g x)) l.
Proof.
  revert n; induction l as [|x l IH]; intros [|n]; simpl; auto.
  now rewrite IH.
Qed.

(** [LOG_ERROR_REGEX] on some lines of a log. *)
Example LOG_ERROR_REGEX_examples :
  re_test LOG_ERROR_REGEX "2020-10-16 07:13:04,325 (natcap.invest.carbon) INFO x" = false /\
  re_test LOG_ERROR_REGEX "Traceback (most recent call last):" = true /\
  re_test LOG_ERROR_REGEX "ValueError: bad raster" = true /\
  re_test LOG_ERROR_REGEX "Error: bad raster" = false /\
  re_test LOG_ERROR_REGEX "07:13:04,325 (taskgraph) ERROR failed" = true /\
  re_test LOG_ERROR_REGEX "  File x.py, line 3" = true /\
  re_test LOG_ERROR_REGEX "File  x.py" = false /\
  re_test LOG_ERROR_REGEX LF = true.
Proof. repeat split. Qed.

(** [markupLine] wraps the line in the class of the first pattern that
    matches, if there is one. *)
Lemma markupLine_find (line : string) (patterns : list (string * RegExp)) :
  markupLine host line patterns
    = sanitizeHtml host
        (match find (fun cp => test host (snd cp) line) patterns with
         | Some (cls, _) => wrap cls line
         | None => line
         end) ALLOWED_HTML_OPTIONS.
Proof.
  induction patterns as [|[cls pat] rest IH]; simpl; [reflexivity|].
  destruct (test host pat line); [reflexivity|exact IH].
Qed.

Lemma Object_assign_primitive (target : string) (source : option string) :
  toPrimitive (Object_assign target source) = target.
Proof. destruct source; reflexivity. Qed.

Lemma append_assoc (a b c : string) : ((a ++ b) ++ c = a ++ (b ++ c))%string.
Proof. induction a as [|x a IH]; simpl; [reflexivity|now rewrite IH]. Qed.

Lemma append_empty_r (a : string) : (a ++ EmptyString = a)%string.
Proof. induction a as [|x a IH]; simpl; [reflexivity|now rewrite IH]. Qed.

Lemma join_app (l1 l2 : list string) :
  join (l1 ++ l2) = (join l1 ++ join l2)%string.
Proof.
  induction l1 as [|x l1 IH]; simpl; [reflexivity|].
  now rewrite IH, append_assoc.
Qed.

(** *** [tailLogfile] *)

Lemma tailLogfile_ok (s : Sys) (file : string) :
  (forall o, Tail_constructor host file o = None) ->
  exists o,
    tailLogfile host file s
    = (mkSys (mkComponent (props (comp s)) (logdata (comp s))
                          (Some (length (tails s))) (logPatterns (comp s)))
             (tails s ++ [mkTail file o true 0 (Some EmptyString) true])
             (log s) (timers s), inl tt).
Proof.
  intros H. unfold tailLogfile, try_catch, bind, new_Tail.
  destruct (String.eqb (platform host) "win32"); rewrite H;
    eexists;
    unfold bind, get, modify, ret, on_line, on_error, set_tail; simpl;
    rewrite !update_nth_app_last, Object_assign_primitive;
    unfold set_tails, set_comp; simpl; reflexivity.
Qed.

Lemma tailLogfile_throws (s : Sys) (file : string) (e : Error) :
  (forall o, Tail_constructor host file o = Some e) ->
  tailLogfile host file s
    = (mkSys (mkComponent (props (comp s))
                          (Some ("Logfile is missing: " ++ EOL host ++ file))
                          (tail (comp s)) (logPatterns (comp s)))
             (tails s)
             (log s ++ [LogError ("Not able to read " ++ file); LogError (stack e)])
             (timers s), inl tt).
Proof.
  intros H. unfold tailLogfile, try_catch, bind, new_Tail.
  destruct (String.eqb (platform host) "win32"); rewrite H;
    unfold throw, setState, logger_error, modify, set_comp; simpl;
    rewrite <- app_assoc; reflexivity.
Qed.

(** *** No handler lets an exception out *)

Lemma tailLogfile_returns (file : string) (s : Sys) :
  exists s', tailLogfile host file s = (s', inl tt).
Proof.
  unfold tailLogfile, try_catch, bind, new_Tail.
  destruct (String.eqb (platform host) "win32");
    destruct (Tail_constructor host file _);
    unfold throw, setState, logger_error, bind, get, modify, ret,
           on_line, on_error, set_tail;
    simpl; eexists; reflexivity.
Qed.

Lemma unwatchLogfile_returns (s : Sys) :
  exists s', unwatchLogfile host s = (s', inl tt).
Proof.
  unfold unwatchLogfile, bind, get. simpl.
  destruct (tail (comp s)) as [t|]; [|eexists; reflexivity].
  unfold try_catch, bind, logger_debug, Tail_unwatch_call, get, modify, bind. simpl.
  destruct (nth_error (tails s) t) as [x|]; simpl; [|eexists; reflexivity].
  destruct (Tail_unwatch host x); simpl; eexists; reflexivity.
Qed.

Lemma handle_returns (e : Event) (s : Sys) :
  exists s', handle host e s = (s', inl tt).
Proof.
  destruct e as [|p| |t data|t err|]; unfold handle.
  - unfold componentDidMount, bind, get. simpl.
    destruct (logfile (props (comp s))) as [f|]; [|eexists; reflexivity].
    destruct (negb (String.eqb f EmptyString));
      [apply tailLogfile_returns|eexists; reflexivity].
  - unfold componentDidUpdate, bind, get, set_props, modify. simpl.
    destruct (logfile p) as [f|]; simpl.
    + destruct (negb (String.eqb f EmptyString)
                && negb (opt_string_eqb (logfile (props (comp s))) (Some f))).
      * destruct (tailLogfile_returns f
                    (set_comp (mkComponent p (logdata (comp s)) (tail (comp s))
                                           (logPatterns (comp s))) s)) as [s' ->].
        simpl. destruct (_ && _); eexists; reflexivity.
      * simpl. destruct (_ && _); eexists; reflexivity.
    + destruct (_ && _); eexists; reflexivity.
  - apply unwatchLogfile_returns.
  - unfold bind, get. simpl. destruct (watching s t); [|eexists; reflexivity].
    unfold line_listener, bind, get. simpl.
    destruct (nth_error (tails s) t) as [x|]; [|eexists; reflexivity].
    destruct (listener_markup x); eexists; reflexivity.
  - eexists; reflexivity.
  - unfold bind, pop_timer. destruct (timers s); simpl; [eexists; reflexivity|].
    apply unwatchLogfile_returns.
Qed.

(** An update that [setState] alone causes reaches [componentDidUpdate]
    with the props unchanged, and then does nothing: this is why [setState]
    and the handlers above do not call it. *)
Lemma opt_string_eqb_refl (a : option string) : opt_string_eqb a a = true.
Proof. destruct a; simpl; [apply String.eqb_refl|reflexivity]. Qed.

Lemma componentDidUpdate_same_props (s : Sys) :
  componentDidUpdate host (props (comp s)) s = (s, inl tt).
Proof.
  unfold componentDidUpdate, bind, get. simpl.
  destruct (logfile (props (comp s))) as [f|] eqn:E; simpl.
  - rewrite String.eqb_refl, andb_false_r. simpl.
    rewrite opt_string_eqb_refl, andb_false_r. reflexivity.
  - rewrite opt_string_eqb_refl, andb_false_r. reflexivity.
Qed.

(** *** Lines arriving on a tail *)


Lemma step_Line (s : Sys) (t : nat) (x : Tail) (m data : string) :
  nth_error (tails s) t = Some x ->
  isWatching x = true ->
  listener_markup x = Some m ->
  step host s (Line t data)
    = mkSys (mkComponent (props (comp s))
                         (Some (m ++ line_markup host (comp s) data))
                         (tail (comp s)) (logPatterns (comp s)))
            (update_nth t (fun x =>
               mkTail (filename x) (options x) (isWatching x) (unwatchCalls x)
                      (Some (m ++ line_markup host (comp s) data)) (errorListener x))
               (tails s))
            (log s) (timers s).
Proof.
  intros Hx Hw Hm.
  unfold step, handle, bind, get, watching. simpl. rewrite Hx, Hw.
  unfold line_listener, bind, get. simpl. rewrite Hx, Hm. reflexivity.
Qed.

Lemma deliver_lines (t : nat) (ds : list string) :
  forall (s : Sys) (x : Tail) (m : string),
    nth_error (tails s) t = Some x ->
    isWatching x = true ->
    listener_markup x = Some m ->
    let s' := deliver host s t ds in
    let buffer := (m ++ join (map (line_markup host (comp s)) ds))%string in
    logPatterns (comp s') = logPatterns (comp s) /\
    (exists x', nth_error (tails s') t = Some x' /\ isWatching x' = true /\
                listener_markup x' = Some buffer) /\
    (ds <> [] -> logdata (comp s') = Some buffer).
Proof.
  induction ds as [|d ds IH]; intros s x m Hx Hw Hm; cbv zeta.
  - simpl. rewrite append_empty_r. split; [reflexivity|].
    split; [exists x; auto|congruence].
  - unfold deliver in *. simpl map. simpl run.
    change (fold_left (step host) (map (Line t) ds) (step host s (Line t d)))
      with (run host (step host s (Line t d)) (map (Line t) ds)).
    rewrite (step_Line s t x m d Hx Hw Hm).
    set (s1 := mkSys _ _ _ _).
    destruct (IH s1
                (mkTail (filename x) (options x) (isWatching x) (unwatchCalls x)
                        (Some (m ++ line_markup host (comp s) d)) (errorListener x))
                (m ++ line_markup host (comp s) d)%string)
      as [Hp [[x' [Hx' [Hw' Hm']]] Hl]].
    + subst s1. simpl. rewrite nth_error_update_nth, Nat.eqb_refl, Hx. reflexivity.
    + exact Hw.
    + reflexivity.
    + assert (E : forall l,
                 ((m ++ line_markup host (comp s) d)
                    ++ join (map (line_markup host (comp s1)) l))%string
                 = (m ++ join (map (line_markup host (comp s)) (d :: l)))%string).
      { intros l. simpl. now rewrite append_assoc. }
      rewrite E in Hm'. split; [exact Hp|].
      split; [exists x'; repeat split; assumption|].
      intros _. destruct ds as [|d' ds'].
      * simpl. now rewrite append_empty_r.
      * rewrite Hl by discriminate. f_equal. exact (E (d' :: ds')).
Qed.

(** *** [unwatchLogfile] while a tail is held *)

Lemma update_nth_const {A : Type} (n : nat) (f : A -> A) (l : list A) (x : A) :
  nth_error l n = Some x ->
  update_nth n f l = update_nth n (fun _ => f x) l.
Proof.
  revert n; induction l as [|y l IH]; intros [|n] H; simpl in *; try discriminate.
  - now inversion H.
  - now rewrite (IH n H).
Qed.

Lemma unwatchLogfile_held (s : Sys) (t : nat) (x : Tail) :
  tail (comp s) = Some t ->
  nth_error (tails s) t = Some x ->
  exists x' lg,
    unwatchLogfile host s
      = (mkSys (comp s) (update_nth t (fun _ => x') (tails s)) lg (timers s), inl tt) /\
    unwatchCalls x' = S (unwatchCalls x) /\
    (isWatching x' = true -> isWatching x = true).
Proof.
  intros Ht Hx.
  unfold unwatchLogfile, bind, get. simpl. rewrite Ht.
  unfold try_catch, bind, logger_debug, Tail_unwatch_call, get, modify, bind. simpl.
  rewrite Hx. simpl.
  destruct (Tail_unwatch host x) as [e|]; simpl.
  - eexists. eexists. split; [|split].
    + unfold set_tails. simpl. rewrite (update_nth_const t _ (tails s) x Hx).
      reflexivity.
    + reflexivity.
    + auto.
  - eexists. eexists. split; [|split].
    + unfold set_tails. simpl. rewrite update_nth_update_nth.
      rewrite (update_nth_const t _ (tails s) x Hx). reflexivity.
    + reflexivity.
    + simpl. discriminate.
Qed.

(** What a teardown request logs while a tail is held: the debug line,
    and the stack of the error if the release throws. *)
Lemma unwatchLogfile_log (s : Sys) (t : nat) (x : Tail) :
  tail (comp s) = Some t ->
  nth_error (tails s) t = Some x ->
  log (fst (unwatchLogfile host s))
  = (log s ++ LogDebug ("unwatching file: " ++ filename x)
       :: match Tail_unwatch host x with
          | Some e => [LogError (stack e)]
          | None => []
          end)%list.
Proof.
  intros Ht Hx.
  unfold unwatchLogfile, bind, get. simpl. rewrite Ht.
  unfold try_catch, bind, logger_debug, Tail_unwatch_call, get, modify, bind,
         tail_filename. simpl.
  rewrite Hx. simpl.
  destruct (Tail_unwatch host x) as [e|]; simpl; [|reflexivity].
  rewrite <- app_assoc. reflexivity.
Qed.

End LogTabFacts.

(** C3: [markupLine] tries the patterns in their order and stops at the
    first that matches: the line gets the class of that pattern and no
    other, or no class when none matches; for the component's patterns the
    error pattern is tried before the module pattern.  What it returns is
    always the sanitizer's result under [ALLOWED_HTML_OPTIONS], which allow
    the one tag [span] with the one attribute [class]. *)
Theorem markupLine_first_match :
  forall (host : LogTab.Host) (line : string)
         (patterns : list (string * LogTab.RegExp)) (p : LogTab.Props),
    let class_of := option_map fst
                      (find (fun cp => LogTab.test host (snd cp) line) patterns) in
    LogTab.markupLine host line patterns
      = LogTab.sanitizeHtml host
          (match class_of with
           | Some cls => LogTab.wrap cls line
           | None => line
           end) LogTab.ALLOWED_HTML_OPTIONS /\
    LogTab.markupLine host line (LogTab.logPatterns (LogTab.constructor p))
      = LogTab.sanitizeHtml host
          (if LogTab.re_test LogTab.LOG_ERROR_REGEX line
           then LogTab.wrap "invest-log-error" line
           else if LogTab.RegExp_test host (LogTab.pyModuleName p) line
                then LogTab.wrap "invest-log-primary" line
                else line) LogTab.ALLOWED_HTML_OPTIONS /\
    LogTab.allowedTags LogTab.ALLOWED_HTML_OPTIONS = ["span"] /\
    LogTab.allowedAttributes LogTab.ALLOWED_HTML_OPTIONS = [("span", ["class"])].
Proof.
  intros host line patterns p. cbv zeta. split; [|split; [|split; reflexivity]].
  - rewrite markupLine_find.
    destruct (find (fun cp => LogTab.test host (snd cp) line) patterns) as [[cls pat]|];
      reflexivity.
  - simpl.
    destruct (LogTab.re_test LogTab.LOG_ERROR_REGEX line); [reflexivity|].
    destruct (LogTab.RegExp_test host (LogTab.pyModuleName p) line); reflexivity.
Qed.

(** C9: the banner that [render] puts in the portal depends on the props
    only, not on the component's state: for [jobStatus] "running" it holds
    the Cancel button alone; for "error" the [finalTraceback] text and the
    Open Workspace button; for "success" the text "Model Complete" and the
    Open Workspace button; for any other value there is no banner.  The
    Open Workspace button is disabled exactly when [jobStatus] is
    "running". *)
Theorem render_status_banner :
  forall (lf ft : option string) (m el : string) (c : LogTab.Component),
    let banner js := LogTab.Portal_children
                       (LogTab.render
                          (LogTab.mkComponent (LogTab.mkProps js lf ft m el)
                             (LogTab.logdata c) (LogTab.tail c) (LogTab.logPatterns c))) in
    let open_workspace disabled :=
      LogTab.Button "outline-dark" LogTab.handleOpenWorkspace disabled "Open Workspace" in
    banner (Some "running")
      = Some (LogTab.mkAlert "secondary"
                [LogTab.Button "outline-dark" LogTab.terminateInvestProcess false "Cancel Run"]) /\
    banner (Some "error")
      = Some (LogTab.mkAlert "danger" [LogTab.Expr ft; open_workspace false]) /\
    banner (Some "success")
      = Some (LogTab.mkAlert "success" [LogTab.Text "Model Complete"; open_workspace false]) /\
    (forall js, js <> Some "running" -> js <> Some "error" -> js <> Some "success" ->
                banner js = None) /\
    (forall js, banner js = LogTab.ModelStatusAlert (LogTab.mkProps js lf ft m el)) /\
    (forall js, LogTab.WorkspaceButton (LogTab.mkProps js lf ft m el)
                = open_workspace (LogTab.opt_string_eqb js (Some "running"))) /\
    LogTab.WorkspaceButton (LogTab.mkProps (Some "running") lf ft m el) = open_workspace true.
Proof.
  intros lf ft m el c. cbv zeta.
  repeat split.
  intros js H1 H2 H3. unfold LogTab.render, LogTab.ModelStatusAlert. simpl.
  destruct js as [s|]; simpl; [|reflexivity].
  destruct (String.eqb_spec s "running") as [->|_]; [congruence|].
  destruct (String.eqb_spec s "error") as [->|_]; [congruence|].
  destruct (String.eqb_spec s "success") as [->|_]; [congruence|].
  reflexivity.
Qed.

Lemma render_status_banner_witness :
  LogTab.Portal_children
    (LogTab.render (LogTab.constructor (LogTab.example_props (Some "idle") None))) = None.
Proof.
  pose proof (render_status_banner None None "natcap.invest.carbon" "footer"
                (LogTab.constructor (LogTab.example_props (Some "idle") None))) as H.
  cbv zeta in H. destruct H as [_ [_ [_ [H _]]]].
  apply (H (Some "idle")); discriminate.
Defined.

(** C5: once [tailLogfile] has set up a tail, the lines that tail delivers
    accumulate in the buffer in the order of delivery: after the lines
    [ds] the buffer is the markup of each line of [ds], every line taken
    with the end-of-line sequence and passed through [markupLine] on its
    own, one after the other; lines delivered later only add to the end of
    what the buffer held. *)
Theorem tail_lines_accumulate_in_order :
  forall (host : LogTab.Host) (s : LogTab.Sys) (file : string)
         (ds more : list string),
    (forall o, LogTab.Tail_constructor host file o = None) ->
    ds <> [] ->
    let s0 := fst (LogTab.tailLogfile host file s) in
    let t := length (LogTab.tails s) in
    let markup ds :=
      LogTab.join
        (map (fun data => LogTab.markupLine host (data ++ LogTab.EOL host)
                            (LogTab.logPatterns (LogTab.comp s))) ds) in
    LogTab.tail (LogTab.comp s0) = Some t /\
    LogTab.logdata (LogTab.comp (LogTab.deliver host s0 t ds)) = Some (markup ds) /\
    LogTab.logdata (LogTab.comp (LogTab.deliver host s0 t (ds ++ more)))
      = Some (markup ds ++ markup more).
Proof.
  intros host s file ds more Hok Hne. cbv zeta.
  destruct (tailLogfile_ok host s file Hok) as [o E]. rewrite E. simpl fst.
  set (x := LogTab.mkTail file o true 0 (Some EmptyString) true).
  set (s0 := LogTab.mkSys _ _ _ _).
  assert (Hx : nth_error (LogTab.tails s0) (length (LogTab.tails s)) = Some x).
  { subst s0. simpl. rewrite nth_error_app2 by lia. now rewrite Nat.sub_diag. }
  split; [reflexivity|]. split.
  - destruct (deliver_lines host (length (LogTab.tails s)) ds s0 x EmptyString
                Hx eq_refl eq_refl) as [_ [_ Hl]].
    rewrite (Hl Hne). reflexivity.
  - destruct (deliver_lines host (length (LogTab.tails s)) (ds ++ more) s0 x EmptyString
                Hx eq_refl eq_refl) as [_ [_ Hl]].
    rewrite Hl.
    + rewrite map_app, join_app. reflexivity.
    + destruct ds; [congruence|discriminate].
Qed.

Lemma tail_lines_accumulate_in_order_witness :
  LogTab.logdata
    (LogTab.comp (LogTab.deliver LogTab.example_host LogTab.example_mounted 0
                    ["hello"; "ERROR x"; "bye"]))
  = Some (LogTab.join
            ["hello" ++ LogTab.LF;
             LogTab.wrap "invest-log-error" ("ERROR x" ++ LogTab.LF);
             "bye" ++ LogTab.LF]).
Proof.
  pose proof (tail_lines_accumulate_in_order LogTab.example_host
                (LogTab.initial (LogTab.example_props (Some "running") (Some "a.log")))
                "a.log" ["hello"; "ERROR x"] ["bye"]) as H.
  destruct H as [_ [_ H]].
  - intros o. reflexivity.
  - discriminate.
  - cbv zeta. exact H.
Defined.

(** C6: when [new Tail] throws, [tailLogfile] sets the buffer to the text
    "Logfile is missing: ", the end-of-line sequence and the path, gives the
    logger's [error] two messages, the second the stack of what was thrown,
    and returns normally; the tail field and the tails are as before.  No
    handler of the component lets an exception out. *)
Theorem tailLogfile_failure_is_contained :
  forall (host : LogTab.Host) (s : LogTab.Sys) (file : string) (e : LogTab.Error),
    (forall o, LogTab.Tail_constructor host file o = Some e) ->
    let r := LogTab.tailLogfile host file s in
    LogTab.logdata (LogTab.comp (fst r))
      = Some ("Logfile is missing: " ++ LogTab.EOL host ++ file) /\
    LogTab.log (fst r)
      = (LogTab.log s ++ [LogTab.LogError ("Not able to read " ++ file);
                          LogTab.LogError (LogTab.stack e)])%list /\
    LogTab.tails (fst r) = LogTab.tails s /\
    LogTab.tail (LogTab.comp (fst r)) = LogTab.tail (LogTab.comp s) /\
    LogTab.completion r = Returned /\
    (forall ev s', LogTab.completion (LogTab.handle host ev s') = Returned).
Proof.
  intros host s file e H. cbv zeta.
  rewrite (tailLogfile_throws host s file e H). simpl.
  repeat split.
  intros ev s'. destruct (handle_returns host ev s') as [s'' ->]. reflexivity.
Qed.

Lemma tailLogfile_failure_is_contained_witness :
  LogTab.logdata (LogTab.comp (LogTab.step LogTab.example_host LogTab.example_missing
                                 LogTab.Mount))
  = Some ("Logfile is missing: " ++ LogTab.LF ++ "missing.txt").
Proof.
  pose proof (tailLogfile_failure_is_contained LogTab.example_host LogTab.example_missing
                "missing.txt" (LogTab.mkError "Error: ENOENT")) as H.
  destruct H as [H _].
  - intros o. reflexivity.
  - exact H.
Defined.

(** C4, as the claim states it, fails: the component is mounted on a log
    file, the job leaves "running" (the teardown timer is set), the
    component is unmounted before the timer fires, and the timer fires:
    [unwatch()] has been called twice on the one tail. *)
Lemma second_teardown_releases_again :
  LogTab.tail (LogTab.comp LogTab.example_teardown_twice) = Some 0 /\
  LogTab.unwatch_calls LogTab.example_teardown_twice 0 = 2 /\
  ~ LogTab.released_at_most_once LogTab.example_teardown_twice.
Proof.
  split; [reflexivity|]. split; [reflexivity|].
  intros H. unfold LogTab.released_at_most_once in H.
  vm_compute in H. inversion H as [|x l Hx Hl]. lia.
Qed.

(** C4, amended: a teardown request made again while a tail is held
    returns normally, as the first does, and leaves the component's fields
    and the pending timers as they are; no tail watches after it that did
    not watch before, and no other tail is touched.  Each of the two
    requests calls [unwatch()] on the held tail once.  With no tail held a
    teardown request does nothing.  A request made while a tail is held
    logs the debug line and, when the release throws, the stack of the
    error. *)
Theorem unwatchLogfile_again :
  forall (host : LogTab.Host) (s : LogTab.Sys) (t : nat) (x : LogTab.Tail),
    LogTab.tail (LogTab.comp s) = Some t ->
    nth_error (LogTab.tails s) t = Some x ->
    let r1 := LogTab.unwatchLogfile host s in
    let r2 := LogTab.unwatchLogfile host (fst r1) in
    LogTab.completion r1 = Returned /\
    LogTab.completion r2 = Returned /\
    LogTab.comp (fst r1) = LogTab.comp s /\
    LogTab.comp (fst r2) = LogTab.comp s /\
    LogTab.timers (fst r2) = LogTab.timers s /\
    LogTab.unwatch_calls (fst r1) t = S (LogTab.unwatchCalls x) /\
    LogTab.unwatch_calls (fst r2) t = S (S (LogTab.unwatchCalls x)) /\
    (forall u, LogTab.watching (fst r2) u = true -> LogTab.watching (fst r1) u = true) /\
    (forall u, u <> t -> nth_error (LogTab.tails (fst r2)) u = nth_error (LogTab.tails s) u) /\
    (forall s', LogTab.tail (LogTab.comp s') = None ->
                LogTab.unwatchLogfile host s' = (s', inl tt)) /\
    (forall s' t' x',
        LogTab.tail (LogTab.comp s') = Some t' ->
        nth_error (LogTab.tails s') t' = Some x' ->
        LogTab.log (fst (LogTab.unwatchLogfile host s'))
        = (LogTab.log s'
             ++ LogTab.LogDebug ("unwatching file: " ++ LogTab.filename x')
             :: match LogTab.Tail_unwatch host x' with
                | Some e => [LogTab.LogError (LogTab.stack e)]
                | None => []
                end)%list).
Proof.
  intros host s t x Ht Hx. cbv zeta.
  destruct (unwatchLogfile_held host s t x Ht Hx) as [x1 [lg1 [E1 [Hc1 Hw1]]]].
  rewrite E1. simpl fst.
  set (s1 := LogTab.mkSys _ _ _ _).
  assert (Hx1 : nth_error (LogTab.tails s1) t = Some x1).
  { subst s1. simpl. rewrite nth_error_update_nth, Nat.eqb_refl, Hx. reflexivity. }
  destruct (unwatchLogfile_held host s1 t x1 Ht Hx1) as [x2 [lg2 [E2 [Hc2 Hw2]]]].
  rewrite E2. simpl fst.
  split; [reflexivity|]. split; [reflexivity|].
  split; [reflexivity|]. split; [reflexivity|]. split; [reflexivity|].
  split; [unfold LogTab.unwatch_calls; rewrite Hx1; exact Hc1|].
  split.
  { unfold LogTab.unwatch_calls. simpl LogTab.tails.
    rewrite nth_error_update_nth, Nat.eqb_refl.
    change (LogTab.update_nth t (fun _ => x1) (LogTab.tails s)) with (LogTab.tails s1).
    rewrite Hx1. simpl. rewrite Hc2, Hc1. reflexivity. }
  split.
  { intros u. unfold LogTab.watching. simpl LogTab.tails.
    rewrite nth_error_update_nth.
    change (LogTab.update_nth t (fun _ => x1) (LogTab.tails s)) with (LogTab.tails s1).
    destruct (Nat.eqb_spec t u) as [<-|Hne]; [|auto].
    rewrite Hx1. simpl. exact Hw2. }
  split.
  { intros u Hne. simpl. subst s1. simpl.
    rewrite !nth_error_update_nth.
    destruct (Nat.eqb_spec t u); [congruence|reflexivity]. }
  split.
  { intros s' Hn. unfold LogTab.unwatchLogfile, LogTab.bind, LogTab.get. simpl.
    rewrite Hn. reflexivity. }
  intros s' t' x'. apply unwatchLogfile_log.
Qed.

Lemma unwatchLogfile_again_witness :
  LogTab.unwatch_calls
    (fst (LogTab.unwatchLogfile LogTab.example_host
            (fst (LogTab.unwatchLogfile LogTab.example_host LogTab.example_mounted))))
    0 = 2.
Proof.
  pose proof (unwatchLogfile_again LogTab.example_host LogTab.example_mounted 0
                (LogTab.mkTail "a.log" (LogTab.mkTailOptions true false None)
                               true 0 (Some EmptyString) true)
                eq_refl eq_refl) as H.
  cbv zeta in H. destruct H as [_ [_ [_ [_ [_ [_ [H _]]]]]]].
  exact H.
Defined.

(** C1 at the failing input: a component mounted on "a.log" whose
    [logfile] prop changes to "b.log" while the job is running.  The tail
    field holds the new tail, and the tail of "a.log" still watches, with
    no [unwatch()] call made on it: two tails are active. *)
Theorem logfile_change_keeps_old_tail_watching :
  LogTab.tail (LogTab.comp LogTab.example_logfile_change) = Some 1 /\
  map (fun x => (LogTab.filename x, LogTab.isWatching x, LogTab.unwatchCalls x))
      (LogTab.tails LogTab.example_logfile_change)
    = [("a.log", true, 0); ("b.log", true, 0)] /\
  length (LogTab.active_tails LogTab.example_logfile_change) = 2.
Proof.
  repeat split.
Qed.

(** * Further properties of ArgsForm *)

Section ArgsFormMore.

Import ArgsForm.

Variable ParentState : Type.
Variable fetch : string -> option Datastack.
Variable props : Props ParentState.

(** The part of the drag state that holds for every sequence of events:
    when the indicator is absent the counter is not positive. *)
Lemma drag_run_positive_shows (es : list FormDrag) :
  forall (i : Instance) (w : World ParentState),
    (dragging i = false -> (dragDepth i <= 0)%Z) ->
    let i' := fst (drag_run fetch props (i, w) es) in
    dragging i' = false -> (dragDepth i' <= 0)%Z.
Proof.
  induction es as [|e es IH]; intros i w Hi; [exact Hi|].
  rewrite drag_run_cons. destruct e as [| |fs].
  - change (drag_step fetch props (i, w) DragEnter)
      with (fst (dragEnterHandler i (blank_event [])), w).
    apply IH.
    destruct (dragEnterHandler_spec i (blank_event [])) as [_ H2].
    rewrite H2. discriminate.
  - change (drag_step fetch props (i, w) DragLeave)
      with (fst (dragLeaveHandler i (blank_event [])), w).
    apply IH.
    destruct (dragLeaveHandler_spec i (blank_event [])) as [H1 H2].
    rewrite H1, H2.
    destruct (Z.leb_spec (dragDepth i - 1) 0); [lia|].
    intros Hf. specialize (Hi Hf). lia.
  - change (drag_step fetch props (i, w) (Drop fs))
      with (r_inst (onArchiveDragDrop fetch props i w (blank_event fs)),
            r_world (onArchiveDragDrop fetch props i w (blank_event fs))).
    apply IH.
    destruct (onArchiveDragDrop_resets ParentState fetch props i w (blank_event fs))
      as [H1 _].
    rewrite H1. lia.
Qed.

End ArgsFormMore.

(** X1: every drop on the form is all or nothing.  Either the handler
    returns, and then exactly one file was dropped, the parser resolved to
    a datastack of the form's module and the parent's state is what
    [batchUpdateArgs] makes of it with the datastack's [args]; or the
    handler throws, and then the parent's state is unchanged and neither
    callback was called. *)
Theorem onArchiveDragDrop_all_or_nothing :
  forall (ParentState : Type) (fetch : string -> option ArgsForm.Datastack)
         (props : ArgsForm.Props ParentState) (i : ArgsForm.Instance)
         (w : ArgsForm.World ParentState) (ev : ArgsForm.DragEvent),
    let r := ArgsForm.onArchiveDragDrop fetch props i w ev in
    (ArgsForm.r_completion r = Returned /\
     exists f ds,
       ArgsForm.files ev = [f] /\
       fetch (ArgsForm.path f) = Some ds /\
       ArgsForm.module_name ds = ArgsForm.pyModuleName props /\
       ArgsForm.parent (ArgsForm.r_world r)
         = ArgsForm.batchUpdateArgs props (ArgsForm.args ds) (ArgsForm.parent w))
    \/
    (ArgsForm.r_completion r = Thrown /\
     ArgsForm.parent (ArgsForm.r_world r) = ArgsForm.parent w /\
     exists made,
       ArgsForm.calls (ArgsForm.r_world r) = (ArgsForm.calls w ++ made)%list /\
       (forall a, ~ In (ArgsForm.BatchUpdateArgs a) made) /\
       (forall n v, ~ In (ArgsForm.UpdateArgValues n v) made)).
Proof.
  intros P fetch props i w ev. cbv zeta.
  unfold ArgsForm.onArchiveDragDrop. simpl.
  destruct (ArgsForm.files ev) as [|f [|f' fs]] eqn:Hf; simpl.
  - right. repeat split. eexists. split; [reflexivity|].
    split; intros; simpl; intuition discriminate.
  - destruct (fetch (ArgsForm.path f)) as [ds|] eqn:Hd.
    + destruct (String.eqb_spec (ArgsForm.module_name ds) (ArgsForm.pyModuleName props))
        as [E|E]; simpl.
      * left. split; [reflexivity|]. exists f, ds. repeat split; assumption.
      * right. repeat split. eexists. split; [rewrite <- app_assoc; reflexivity|].
        split; intros; simpl; intuition discriminate.
    + right. repeat split. eexists. split; [reflexivity|].
      split; intros; simpl; intuition discriminate.
  - right. repeat split. eexists. split; [reflexivity|].
    split; intros; simpl; intuition discriminate.
Qed.

(** X2: when the parser's promise is rejected for the one dropped file,
    the handler throws without raising any alert: the parser is the only
    collaborator called, and the parent's state is unchanged. *)
Theorem onArchiveDragDrop_parser_rejects :
  forall (ParentState : Type) (fetch : string -> option ArgsForm.Datastack)
         (props : ArgsForm.Props ParentState) (i : ArgsForm.Instance)
         (w : ArgsForm.World ParentState) (ev : ArgsForm.DragEvent)
         (f : ArgsForm.File),
    ArgsForm.files ev = [f] ->
    fetch (ArgsForm.path f) = None ->
    let r := ArgsForm.onArchiveDragDrop fetch props i w ev in
    ArgsForm.r_completion r = Thrown /\
    ArgsForm.r_world r
      = ArgsForm.mkWorld (ArgsForm.parent w)
          (ArgsForm.calls w ++ [ArgsForm.FetchDatastackFromFile (ArgsForm.path f)])%list /\
    ArgsForm.dragging (ArgsForm.r_inst r) = false.
Proof.
  intros P fetch props i w ev f Hf Hd. cbv zeta.
  split; [|split].
  - unfold ArgsForm.onArchiveDragDrop. simpl. rewrite Hf. simpl. now rewrite Hd.
  - unfold ArgsForm.onArchiveDragDrop. simpl. rewrite Hf. simpl. now rewrite Hd.
  - apply onArchiveDragDrop_resets.
Qed.

Lemma onArchiveDragDrop_parser_rejects_witness :
  ArgsForm.r_completion
    (ArgsForm.onArchiveDragDrop ArgsForm.example_fetch ArgsForm.example_form_props
       ArgsForm.constructor ArgsForm.example_world ArgsFormExamples.example_drop_unreadable)
  = Thrown.
Proof.
  apply (onArchiveDragDrop_parser_rejects ArgsForm.Args ArgsForm.example_fetch
           ArgsForm.example_form_props ArgsForm.constructor ArgsForm.example_world
           ArgsFormExamples.example_drop_unreadable (ArgsForm.mkFile "/data/notes.txt")
           eq_refl eq_refl).
Defined.

(** X3: for every sequence of the form's drag events, nested or not, a
    positive depth counter means that the "dragging" indicator is
    present. *)
Theorem positive_depth_shows_indicator :
  forall (ParentState : Type) (fetch : string -> option ArgsForm.Datastack)
         (props : ArgsForm.Props ParentState) (w : ArgsForm.World ParentState)
         (es : list ArgsForm.FormDrag),
    let i := fst (ArgsForm.drag_run fetch props (ArgsForm.constructor, w) es) in
    (0 < ArgsForm.dragDepth i)%Z -> ArgsForm.dragging i = true.
Proof.
  intros P fetch props w es. cbv zeta. intros Hpos.
  destruct (ArgsForm.dragging
              (fst (ArgsForm.drag_run fetch props (ArgsForm.constructor, w) es))) eqn:E;
    [reflexivity|].
  pose proof (drag_run_positive_shows P fetch props es ArgsForm.constructor w) as H.
  cbv zeta in H. specialize (H (fun _ => Z.le_refl 0) E). lia.
Qed.

Lemma positive_depth_shows_indicator_witness :
  ArgsForm.dragging ArgsFormExamples.example_unnested_drag = true.
Proof.
  apply (positive_depth_shows_indicator ArgsForm.Args ArgsForm.example_fetch
           ArgsForm.example_form_props ArgsForm.example_world
           [ArgsForm.DragLeave; ArgsForm.DragEnter; ArgsForm.DragEnter]).
  reflexivity.
Defined.

(** X4: the handlers of a single field.  A drop on an input never throws
    and never alerts, whatever the number of files, and leaves the form's
    drag counter and indicator as they are: with no file it calls nothing,
    otherwise it sets the field named by the event's target to the path of
    the first file and ignores the others.  The browse button opens a
    directory dialog when the target's value is "directory" and a file
    dialog otherwise; a dialog closed without a selection changes nothing,
    otherwise the field is set to the first selected path. *)
Theorem field_handlers_use_first_selection :
  forall (ParentState : Type) (showOpenDialog : string -> list string)
         (props : ArgsForm.Props ParentState) (i : ArgsForm.Instance)
         (w : ArgsForm.World ParentState) (ev : ArgsForm.DragEvent)
         (name value : string),
    let r := ArgsForm.inputDropHandler props i w ev in
    let set_field v w :=
      ArgsForm.mkWorld
        (ArgsForm.updateArgValues props (ArgsForm.target_name ev) v (ArgsForm.parent w))
        (ArgsForm.calls w ++ [ArgsForm.UpdateArgValues (ArgsForm.target_name ev) v])%list in
    let dialog := if String.eqb value "directory" then "openDirectory" else "openFile" in
    let opened := ArgsForm.mkWorld (ArgsForm.parent w)
                    (ArgsForm.calls w ++ [ArgsForm.ShowOpenDialog dialog])%list in
    ArgsForm.r_inst r = i /\
    ArgsForm.r_completion r = Returned /\
    ArgsForm.propagationStopped (ArgsForm.r_event r) = true /\
    ArgsForm.r_world r
      = match ArgsForm.files ev with
        | [] => w
        | f :: _ => set_field (ArgsForm.VStr (ArgsForm.path f)) w
        end /\
    ArgsForm.selectFile ParentState showOpenDialog props w name value
      = match showOpenDialog dialog with
        | [] => opened
        | p :: _ =>
            ArgsForm.mkWorld
              (ArgsForm.updateArgValues props name (ArgsForm.VStr p) (ArgsForm.parent w))
              (ArgsForm.calls w ++ [ArgsForm.ShowOpenDialog dialog;
                                    ArgsForm.UpdateArgValues name (ArgsForm.VStr p)])%list
        end.
Proof.
  intros P dlg props i w ev name value. cbv zeta.
  unfold ArgsForm.inputDropHandler, ArgsForm.selectFile. simpl.
  destruct (ArgsForm.files ev) as [|f fs]; simpl; repeat split;
    destruct (dlg _) as [|p ps]; try reflexivity;
    unfold ArgsForm.do_updateArgValues, ArgsForm.call; simpl;
    rewrite <- app_assoc; reflexivity.
Qed.

(** * Properties of the form that ArgsForm renders *)

Section ArgsFormViewFacts.

Import ArgsForm ArgsFormView.

Variable p : ViewProps.

Lemma render_input_argkey (k : string) (x : ArgInput) :
  render_input p k = Some x -> input_argkey x = k /\ input_key x = k.
Proof.
  unfold render_input.
  destruct (nullish (get k (argsValues p))); [discriminate|].
  destruct (nullish (get k (argsValidation p))); [discriminate|].
  intros H; inversion H; split; reflexivity.
Qed.

Lemma render_input_none (k : string) :
  render_input p k = None <->
  nullish (get k (argsValues p)) = true \/ nullish (get k (argsValidation p)) = true.
Proof.
  unfold render_input.
  destruct (nullish (get k (argsValues p))); [tauto|].
  destruct (nullish (get k (argsValidation p))); [tauto|].
  split; [discriminate|intros [H|H]; discriminate].
Qed.

(** When [o[k]] is [undefined] or [null]. *)
Lemma nullish_get {A : Type} (k : string) (o : Obj A) :
  nullish (get k o) = true <->
  lookup k o = Some None \/ (lookup k o = None /\ inherited k = false).
Proof.
  unfold get. destruct (lookup k o) as [[a|]|]; simpl.
  - split; [discriminate|intros [H|[H _]]; discriminate].
  - split; auto.
  - destruct (inherited k); simpl.
    + split; [discriminate|intros [H|[_ H]]; discriminate].
    + split; auto.
Qed.

Lemma render_group_some (g : list string) :
  forall acc items,
    render_group p g acc = Some items ->
    exists new, items = (acc ++ new)%list /\
                map input_argkey new = g /\
                Forall (fun x => render_input p (input_argkey x) = Some x) new.
Proof.
  induction g as [|k g IH]; intros acc items H; simpl in H.
  - inversion H; subst. exists []. rewrite app_nil_r. repeat split. constructor.
  - destruct (render_input p k) as [x|] eqn:E; [|discriminate].
    destruct (IH _ _ H) as [new [H1 [H2 H3]]].
    destruct (render_input_argkey k x E) as [Hk _].
    exists (x :: new). split; [|split].
    + rewrite H1, <- app_assoc. reflexivity.
    + simpl. now rewrite Hk, H2.
    + constructor; [now rewrite Hk|exact H3].
Qed.

Lemma render_group_none (g : list string) :
  forall acc,
    render_group p g acc = None <-> exists k, In k g /\ render_input p k = None.
Proof.
  induction g as [|k g IH]; intros acc; simpl.
  - split; [discriminate|intros [k [[] _]]].
  - destruct (render_input p k) as [x|] eqn:E.
    + rewrite IH. split.
      * intros [k' [H1 H2]]. exists k'. auto.
      * intros [k' [[->|H1] H2]]; [congruence|exists k'; auto].
    + split; [|reflexivity]. intros _. exists k. auto.
Qed.

Lemma render_groups_some (gs : list (list string)) :
  forall k acc items,
    render_groups p gs k acc = Some items ->
    exists new, items = (acc ++ new)%list /\
                map (fun g => map input_argkey (group_items g)) new = gs /\
                map group_key new = seq (S k) (length gs) /\
                Forall (fun g => Forall (fun x => render_input p (input_argkey x) = Some x)
                                        (group_items g)) new.
Proof.
  induction gs as [|g gs IH]; intros k acc items H; simpl in H.
  - inversion H; subst. exists []. rewrite app_nil_r. repeat split. constructor.
  - destruct (render_group p g []) as [its|] eqn:E; [|discriminate].
    destruct (IH _ _ _ H) as [new [H1 [H2 [H3 H4]]]].
    destruct (render_group_some g [] its E) as [its' [E1 [E2 E3]]].
    simpl in E1. subst its'.
    exists (mkArgGroup (k + 1) its :: new). split; [|split; [|split]].
    + rewrite H1, <- app_assoc. reflexivity.
    + simpl. now rewrite E2, H2.
    + simpl. rewrite H3. replace (k + 1) with (S k) by lia. reflexivity.
    + constructor; [exact E3|exact H4].
Qed.

Lemma render_groups_none (gs : list (list string)) :
  forall k acc,
    render_groups p gs k acc = None <->
    exists g, In g gs /\ render_group p g [] = None.
Proof.
  induction gs as [|g gs IH]; intros k acc; simpl.
  - split; [discriminate|intros [g [[] _]]].
  - destruct (render_group p g []) as [its|] eqn:E.
    + rewrite IH. split.
      * intros [g' [H1 H2]]. exists g'. auto.
      * intros [g' [[->|H1] H2]]; [congruence|exists g'; auto].
    + split; [|reflexivity]. intros _. exists g. auto.
Qed.

End ArgsFormViewFacts.

(** X5: [render] of ArgsForm, given plain objects, throws exactly when
    for some key of the grouping [argsValues[key]] or
    [argsValidation[key]] is [undefined] or [null]: the object has an own
    entry for the key that is [null], or it has no own entry for it and
    the key is not a name inherited from [Object.prototype].  What
    [argsSpec] holds for a key never makes it throw. *)
Theorem render_throws_iff_key_missing :
  forall (p : ArgsFormView.ViewProps),
    ArgsFormView.render p = None <->
    exists g k, In g (ArgsFormView.sortedArgKeys p) /\ In k g /\
                (ArgsFormView.missing k (ArgsFormView.argsValues p) \/
                 ArgsFormView.missing k (ArgsFormView.argsValidation p)).
Proof.
  intros p. unfold ArgsFormView.missing, ArgsFormView.render.
  destruct (ArgsFormView.render_groups p (ArgsFormView.sortedArgKeys p) 0 []) as [items|] eqn:E.
  - split; [discriminate|].
    intros [g [k [Hg [Hk Hm]]]]. exfalso.
    assert (N : ArgsFormView.render_groups p (ArgsFormView.sortedArgKeys p) 0 [] = None).
    { apply render_groups_none. exists g. split; [exact Hg|].
      apply render_group_none. exists k. split; [exact Hk|].
      apply render_input_none. rewrite !nullish_get. exact Hm. }
    congruence.
  - split; [|reflexivity]. intros _.
    apply render_groups_none in E. destruct E as [g [Hg E]].
    apply render_group_none in E. destruct E as [k [Hk E]].
    apply render_input_none in E. rewrite !nullish_get in E. exists g, k. auto.
Qed.

(** X6: when [render] returns, the form has one group per group of
    [sortedArgKeys], in order and keyed 1, 2, ...; every group holds one
    input per key of its group, in order (an empty group gives an empty
    group element); and every input carries its key and, for that key,
    [argsSpec[key]] as it is, the [value], [touched] and [ui_option] read
    from [argsValues[key]] and the [valid] and [validationMessage] read
    from [argsValidation[key]], neither of which is [undefined] or
    [null]: for a key with own entries these are the entries of the
    mappings. *)
Theorem render_keeps_grouping :
  forall (p : ArgsFormView.ViewProps) (form : ArgsFormView.FormElement),
    ArgsFormView.render p = Some form ->
    let groups := ArgsFormView.form_children form in
    map (fun g => map ArgsFormView.input_argkey (ArgsFormView.group_items g)) groups
      = ArgsFormView.sortedArgKeys p /\
    map ArgsFormView.group_key groups = seq 1 (length (ArgsFormView.sortedArgKeys p)) /\
    (forall g x,
        In g groups -> In x (ArgsFormView.group_items g) ->
        let k := ArgsFormView.input_argkey x in
        let v := ArgsFormView.get k (ArgsFormView.argsValues p) in
        let vd := ArgsFormView.get k (ArgsFormView.argsValidation p) in
        ArgsFormView.input_key x = k /\
        ArgsFormView.input_argSpec x = ArgsFormView.get k (ArgsFormView.argsSpec p) /\
        ArgsFormView.nullish v = false /\
        ArgsFormView.input_value x = ArgsFormView.read ArgsFormView.value v /\
        ArgsFormView.input_touched x = ArgsFormView.read ArgsFormView.touched v /\
        ArgsFormView.input_ui_option x = ArgsFormView.read ArgsFormView.ui_option v /\
        ArgsFormView.nullish vd = false /\
        ArgsFormView.input_isValid x = ArgsFormView.read ArgsFormView.valid vd /\
        ArgsFormView.input_validationMessage x
          = ArgsFormView.read ArgsFormView.validationMessage vd /\
        (forall a, ArgsFormView.lookup k (ArgsFormView.argsValues p) = Some (Some a) ->
                   ArgsFormView.input_value x = ArgsFormView.value a /\
                   ArgsFormView.input_touched x = ArgsFormView.touched a /\
                   ArgsFormView.input_ui_option x = ArgsFormView.ui_option a) /\
        (forall d, ArgsFormView.lookup k (ArgsFormView.argsValidation p) = Some (Some d) ->
                   ArgsFormView.input_isValid x = ArgsFormView.valid d /\
                   ArgsFormView.input_validationMessage x
                     = ArgsFormView.validationMessage d)).
Proof.
  intros p form H. cbv zeta. unfold ArgsFormView.render in H.
  destruct (ArgsFormView.render_groups p (ArgsFormView.sortedArgKeys p) 0 []) as [items|] eqn:E;
    [|discriminate].
  inversion H; subst form; clear H. simpl.
  destruct (render_groups_some p _ _ _ _ E) as [new [H1 [H2 [H3 H4]]]].
  simpl in H1. subst new.
  split; [exact H2|]. split; [exact H3|].
  intros g x Hg Hx.
  rewrite Forall_forall in H4. specialize (H4 g Hg).
  rewrite Forall_forall in H4. specialize (H4 x Hx).
  unfold ArgsFormView.render_input in H4. cbv zeta in H4.
  remember (ArgsFormView.input_argkey x) as k eqn:Hk.
  destruct (ArgsFormView.nullish (ArgsFormView.get k (ArgsFormView.argsValues p))) eqn:Nv;
    [discriminate|].
  destruct (ArgsFormView.nullish (ArgsFormView.get k (ArgsFormView.argsValidation p))) eqn:Nd;
    [discriminate|].
  inversion H4 as [Hx']. clear H4 Hk. subst x. simpl.
  repeat (split; [reflexivity|]).
  split.
  - intros a Ha. unfold ArgsFormView.get. rewrite Ha. simpl. auto.
  - intros d Hd. unfold ArgsFormView.get. rewrite Hd. simpl. auto.
Qed.

Lemma render_keeps_grouping_witness :
  exists form,
    ArgsFormView.render ArgsFormView.example_view = Some form /\
    map (fun g => map ArgsFormView.input_argkey (ArgsFormView.group_items g))
        (ArgsFormView.form_children form)
      = [["workspace_dir"; "results_suffix"]; []; ["n_workers"; "toString"]].
Proof.
  eexists. split; [reflexivity|].
  apply (render_keeps_grouping ArgsFormView.example_view _ eq_refl).
Defined.

(** * Properties of LogTab over its life *)

Section LogTabLifeFacts.

Import LogTab LogTabLife.

Variable host : Host.

(** What [tailLogfile] does, in its two cases. *)
Lemma tailLogfile_cases (s : Sys) (file : string) :
  (exists e,
      tailLogfile host file s
      = (mkSys (mkComponent (props (comp s))
                            (Some ("Logfile is missing: " ++ EOL host ++ file))
                            (tail (comp s)) (logPatterns (comp s)))
               (tails s)
               (log s ++ [LogError ("Not able to read " ++ file); LogError (stack e)])
               (timers s), inl tt))
  \/
  (exists o,
      tailLogfile host file s
      = (mkSys (mkComponent (props (comp s)) (logdata (comp s))
                            (Some (length (tails s))) (logPatterns (comp s)))
               (tails s ++ [mkTail file o true 0 (Some EmptyString) true])
               (log s) (timers s), inl tt)).
Proof.
  unfold tailLogfile, try_catch, bind, new_Tail.
  destruct (String.eqb (platform host) "win32");
    destruct (Tail_constructor host file _) as [e|].
  1,3: left; exists e;
       unfold throw, setState, logger_error, modify, set_comp; simpl;
       rewrite <- app_assoc; reflexivity.
  all: right; eexists;
       unfold bind, get, modify, ret, on_line, on_error, set_tail; simpl;
       rewrite !update_nth_app_last, Object_assign_primitive;
       unfold set_tails, set_comp; simpl; reflexivity.
Qed.

Lemma step_Mount (s : Sys) :
  step host s Mount
  = if truthy (logfile (props (comp s)))
    then match logfile (props (comp s)) with
         | Some f => fst (tailLogfile host f s)
         | None => s
         end
    else s.
Proof.
  unfold step, handle, componentDidMount, bind, get. cbv beta iota.
  destruct (logfile (props (comp s))) as [f|]; [|reflexivity].
  destruct (truthy (Some f)); reflexivity.
Qed.

Lemma step_NewProps (s : Sys) (p : Props) :
  step host s (NewProps p)
  = let s1 := set_comp (mkComponent p (logdata (comp s)) (tail (comp s))
                                    (logPatterns (comp s))) s in
    let s2 := if changes_logfile (props (comp s)) p
              then match logfile p with
                   | Some f => fst (tailLogfile host f s1)
                   | None => s1
                   end
              else s1 in
    if leaves_running (props (comp s)) p
    then mkSys (comp s2) (tails s2) (log s2) (timers s2 ++ [3000])
    else s2.
Proof.
  cbv zeta. unfold step, handle, componentDidUpdate, bind, get, set_props, modify.
  unfold changes_logfile, leaves_running. simpl.
  destruct (logfile p) as [f|]; simpl.
  - destruct (negb (String.eqb f EmptyString)
              && negb (opt_string_eqb (logfile (props (comp s))) (Some f))).
    + destruct (tailLogfile_returns host f
                  (set_comp (mkComponent p (logdata (comp s)) (tail (comp s))
                                         (logPatterns (comp s))) s)) as [s' ->].
      simpl. destruct (_ && _); reflexivity.
    + simpl. destruct (_ && _); reflexivity.
  - destruct (_ && _); reflexivity.
Qed.

Lemma step_TimerFires (s : Sys) :
  step host s TimerFires
  = match timers s with
    | [] => s
    | _ :: rest => fst (unwatchLogfile host (mkSys (comp s) (tails s) (log s) rest))
    end.
Proof.
  unfold step, handle, bind, pop_timer. destruct (timers s); reflexivity.
Qed.

(** What [unwatchLogfile] leaves alone. *)
Lemma unwatchLogfile_frame (s : Sys) :
  let s' := fst (unwatchLogfile host s) in
  comp s' = comp s /\ timers s' = timers s /\
  length (tails s') = length (tails s) /\
  (forall u, tail (comp s) <> Some u -> nth_error (tails s') u = nth_error (tails s) u) /\
  (forall u, watching s' u = true -> watching s u = true).
Proof.
  cbv zeta. destruct (tail (comp s)) as [t|] eqn:Ht.
  - destruct (nth_error (tails s) t) as [x|] eqn:Hx.
    + destruct (unwatchLogfile_held host s t x Ht Hx) as [x' [lg [E [Hc Hw]]]].
      rewrite E. simpl. repeat split.
      * apply update_nth_length.
      * intros u Hu. rewrite nth_error_update_nth.
        destruct (Nat.eqb_spec t u); [congruence|reflexivity].
      * intros u. unfold watching. simpl. rewrite nth_error_update_nth.
        destruct (Nat.eqb_spec t u) as [<-|]; [|auto].
        rewrite Hx. simpl. exact Hw.
    + unfold unwatchLogfile, bind, get. simpl. rewrite Ht.
      unfold try_catch, bind, logger_debug, Tail_unwatch_call, get, modify, bind. simpl.
      rewrite Hx. simpl. repeat split; auto.
  - unfold unwatchLogfile, bind, get. simpl. rewrite Ht. simpl. repeat split; auto.
Qed.

(** What one event can change: never the patterns, never a tail that
    watches and is not held; and the held tail stays, or becomes a tail
    created by this event. *)
Lemma step_frame (e : Event) (s : Sys) :
  let s' := step host s e in
  logPatterns (comp s') = logPatterns (comp s) /\
  (forall u, tail (comp s) <> Some u -> watching s u = true -> watching s' u = true) /\
  ((tail (comp s') = tail (comp s) /\ length (tails s') = length (tails s)) \/
   (tail (comp s') = Some (length (tails s)) /\
    length (tails s') = S (length (tails s)))).
Proof.
  cbv zeta.
  assert (T : forall f s0,
             let s' := fst (tailLogfile host f s0) in
             logPatterns (comp s') = logPatterns (comp s0) /\
             (forall u, watching s0 u = true -> watching s' u = true) /\
             ((tail (comp s') = tail (comp s0) /\ length (tails s') = length (tails s0)) \/
              (tail (comp s') = Some (length (tails s0)) /\
               length (tails s') = S (length (tails s0))))).
  { intros f s0. cbv zeta.
    destruct (tailLogfile_cases s0 f) as [[e0 E]|[o E]]; rewrite E; simpl.
    - repeat split; auto.
    - split; [reflexivity|]. split.
      + intros u. unfold watching. simpl.
        destruct (nth_error (tails s0) u) as [x|] eqn:Hx; [|discriminate].
        rewrite nth_error_app1 by (apply nth_error_Some; congruence).
        now rewrite Hx.
      + right. split; [reflexivity|]. rewrite length_app. simpl. lia. }
  destruct e as [|p| |t data|t err|].
  - rewrite step_Mount. destruct (truthy _); [|repeat split; auto].
    destruct (logfile (props (comp s))) as [f|]; [|repeat split; auto].
    destruct (T f s) as [H1 [H2 H3]]. repeat split; auto.
  - rewrite step_NewProps. cbv zeta.
    set (s1 := set_comp _ s).
    assert (F : forall s2,
               logPatterns (comp s2) = logPatterns (comp s) /\
               (forall u, tail (comp s) <> Some u -> watching s u = true ->
                          watching s2 u = true) /\
               ((tail (comp s2) = tail (comp s) /\ length (tails s2) = length (tails s)) \/
                (tail (comp s2) = Some (length (tails s)) /\
                 length (tails s2) = S (length (tails s)))) ->
               let s3 := if leaves_running (props (comp s)) p
                         then mkSys (comp s2) (tails s2) (log s2) (timers s2 ++ [3000])
                         else s2 in
               logPatterns (comp s3) = logPatterns (comp s) /\
               (forall u, tail (comp s) <> Some u -> watching s u = true ->
                          watching s3 u = true) /\
               ((tail (comp s3) = tail (comp s) /\ length (tails s3) = length (tails s)) \/
                (tail (comp s3) = Some (length (tails s)) /\
                 length (tails s3) = S (length (tails s))))).
    { intros s2 H. cbv zeta. destruct (leaves_running _ _); exact H. }
    apply F.
    destruct (changes_logfile _ _).
    + destruct (logfile p) as [f|]; [|subst s1; repeat split; auto].
      destruct (T f s1) as [H1 [H2 H3]]. subst s1. simpl in *.
      split; [exact H1|]. split; [intros u _ Hw; apply H2; exact Hw|exact H3].
    + subst s1. repeat split; auto.
  - destruct (unwatchLogfile_frame s) as [H1 [H2 [H3 [H4 H5]]]].
    unfold step, handle, componentWillUnmount.
    split; [now rewrite H1|]. split.
    + intros u Hu. unfold watching. rewrite (H4 u Hu). auto.
    + left. split; [now rewrite H1|exact H3].
  - unfold step, handle, bind, get. simpl.
    destruct (watching s t) eqn:Hw; [|repeat split; auto].
    unfold line_listener, bind, get. simpl.
    destruct (nth_error (tails s) t) as [x|] eqn:Hx; [|repeat split; auto].
    destruct (listener_markup x) as [m|]; [|repeat split; auto].
    simpl. split; [reflexivity|]. split.
    + intros u _. unfold watching. simpl. rewrite nth_error_update_nth.
      destruct (Nat.eqb_spec t u) as [<-|]; [|auto].
      rewrite Hx. simpl. auto.
    + left. split; [reflexivity|apply update_nth_length].
  - simpl. repeat split; auto.
  - rewrite step_TimerFires. destruct (timers s) as [|d rest]; [repeat split; auto|].
    destruct (unwatchLogfile_frame (mkSys (comp s) (tails s) (log s) rest))
      as [H1 [H2 [H3 [H4 H5]]]]. simpl in *.
    split; [now rewrite H1|]. split.
    + intros u Hu. unfold watching. rewrite (H4 u Hu). auto.
    + left. split; [now rewrite H1|exact H3].
Qed.

Lemma watching_lt (s : Sys) (u : nat) :
  watching s u = true -> u < length (tails s).
Proof.
  unfold watching. intros H. apply nth_error_Some.
  destruct (nth_error (tails s) u); [discriminate|discriminate].
Qed.

Lemma run_cons (s : Sys) (e : Event) (es : list Event) :
  run host s (e :: es) = run host (step host s e) es.
Proof. reflexivity. Qed.

Lemma run_app (s : Sys) (es1 es2 : list Event) :
  run host s (es1 ++ es2) = run host (run host s es1) es2.
Proof. unfold run. apply fold_left_app. Qed.

Lemma orphaned_step (s : Sys) (u : nat) (e : Event) :
  orphaned s u -> orphaned (step host s e) u.
Proof.
  intros [Hw Hh]. destruct (step_frame e s) as [_ [H2 H3]].
  split; [apply H2; assumption|].
  destruct H3 as [[H3 _]|[H3 _]]; rewrite H3; [exact Hh|].
  apply watching_lt in Hw. intros E. inversion E. lia.
Qed.

Lemma held_is_last_step (s : Sys) (e : Event) :
  held_is_last s -> held_is_last (step host s e).
Proof.
  unfold held_is_last. intros H.
  destruct (step_frame e s) as [_ [_ [[H3 H4]|[H3 H4]]]]; rewrite H3.
  - destruct (tail (comp s)) as [t|]; [congruence|].
    apply length_zero_iff_nil. rewrite H4, H. reflexivity.
  - exact H4.
Qed.

(** Lines on the one tail of a component that holds it. *)
Lemma deliver_single (ds : list string) :
  forall (pr : Props) (ld : option string) (pats : list (string * RegExp))
         (f : string) (o : TailOptions) (n : nat) (m : string)
         (lg : list LogEntry) (tm : list nat),
    deliver host
      (mkSys (mkComponent pr ld (Some 0) pats) [mkTail f o true n (Some m) true] lg tm)
      0 ds
    = mkSys (mkComponent pr
               (match ds with
                | [] => ld
                | _ => Some (m ++ join (map (fun d => markupLine host (d ++ EOL host) pats) ds))
                end)
               (Some 0) pats)
            [mkTail f o true n
                    (Some (m ++ join (map (fun d => markupLine host (d ++ EOL host) pats) ds)))
                    true]
            lg tm.
Proof.
  induction ds as [|d ds IH]; intros pr ld pats f o n m lg tm.
  - simpl. rewrite append_empty_r. reflexivity.
  - unfold deliver in *. simpl map. rewrite run_cons.
    rewrite (step_Line host
               (mkSys (mkComponent pr ld (Some 0) pats)
                      [mkTail f o true n (Some m) true] lg tm)
               0 (mkTail f o true n (Some m) true) m d eq_refl eq_refl eq_refl).
    simpl. unfold line_markup. simpl.
    rewrite IH. rewrite append_assoc.
    destruct ds; simpl; [rewrite append_empty_r|]; reflexivity.
Qed.

End LogTabLifeFacts.

(** X7: a tail that watches its file while [this.tail] refers to another
    tail stays so through every later sequence of events: nothing the
    component does afterwards stops it or makes it the held tail again. *)
Theorem orphaned_tail_watches_forever :
  forall (host : LogTab.Host) (s : LogTab.Sys) (u : nat) (es : list LogTab.Event),
    LogTabLife.orphaned s u ->
    LogTabLife.orphaned (LogTab.run host s es) u.
Proof.
  intros host s u es. revert s.
  induction es as [|e es IH]; intros s H; [exact H|].
  rewrite run_cons. apply IH. apply orphaned_step. exact H.
Qed.

Lemma orphaned_tail_watches_forever_witness :
  LogTabLife.orphaned LogTabLife.example_change_then_teardown 0.
Proof.
  apply (orphaned_tail_watches_forever LogTab.example_host LogTab.example_logfile_change 0
           [LogTab.NewProps (LogTab.example_props (Some "success") (Some "b.log"));
            LogTab.TimerFires; LogTab.Unmount]).
  split; [reflexivity|discriminate].
Defined.

(** X8: through every sequence of events after construction, [this.tail]
    is unset exactly as long as no [Tail] object has been created, and
    otherwise refers to the [Tail] object created last. *)
Theorem held_tail_is_the_last_created :
  forall (host : LogTab.Host) (p : LogTab.Props) (es : list LogTab.Event),
    LogTabLife.held_is_last (LogTab.run host (LogTab.initial p) es).
Proof.
  intros host p es.
  assert (G : forall s, LogTabLife.held_is_last s ->
                        LogTabLife.held_is_last (LogTab.run host s es)).
  { induction es as [|e es IH]; intros s H; [exact H|].
    rewrite run_cons. apply IH. apply held_is_last_step. exact H. }
  apply G. reflexivity.
Qed.

(** X9: the patterns of the classifier are those of the constructor for
    the whole life of the component: the error pattern, then the pattern
    made of the [pyModuleName] the component was constructed with, also
    after the props have changed. *)
Theorem logPatterns_fixed_at_construction :
  forall (host : LogTab.Host) (p : LogTab.Props) (es : list LogTab.Event),
    LogTab.logPatterns (LogTab.comp (LogTab.run host (LogTab.initial p) es))
    = [("invest-log-error", LogTab.Literal LogTab.LOG_ERROR_REGEX);
       ("invest-log-primary", LogTab.NewRegExp (LogTab.pyModuleName p))].
Proof.
  intros host p es.
  assert (G : forall s,
             LogTab.logPatterns (LogTab.comp (LogTab.run host s es))
             = LogTab.logPatterns (LogTab.comp s)).
  { induction es as [|e es IH]; intros s; [reflexivity|].
    rewrite run_cons, IH. apply step_frame. }
  rewrite G. reflexivity.
Qed.

(** X10: an update with the props unchanged, as every [setState] causes,
    does nothing: no tail is created, no teardown is scheduled, nothing is
    logged. *)
Theorem update_with_same_props_does_nothing :
  forall (host : LogTab.Host) (s : LogTab.Sys),
    LogTab.handle host (LogTab.NewProps (LogTab.props (LogTab.comp s))) s = (s, inl tt).
Proof.
  intros host s.
  unfold LogTab.handle, LogTab.bind, LogTab.get, LogTab.set_props, LogTab.modify.
  cbv beta iota.
  replace (LogTab.set_comp _ s) with s by (destruct s as [[? ? ? ?] ? ? ?]; reflexivity).
  rewrite (componentDidUpdate_same_props host s). reflexivity.
Qed.

Section LogTabRuns.

Import LogTab LogTabLife.

Variable host : Host.

(** Mounting on a log file that [new Tail] accepts. *)
Lemma mount_ok (p : Props) (f : string) :
  logfile p = Some f -> f <> EmptyString ->
  (forall o, Tail_constructor host f o = None) ->
  exists o,
    step host (initial p) Mount
    = mkSys (mkComponent p None (Some 0) (logPatterns (constructor p)))
            [mkTail f o true 0 (Some EmptyString) true] [] [].
Proof.
  intros Hf Hne Hok. rewrite step_Mount. simpl. rewrite Hf. simpl.
  destruct (String.eqb_spec f EmptyString) as [E|_]; [contradiction|]. simpl.
  destruct (tailLogfile_ok host (initial p) f Hok) as [o E]. exists o.
  rewrite E. reflexivity.
Qed.

Lemma changes_logfile_same (prev next : Props) (f : string) :
  logfile prev = Some f -> logfile next = Some f -> changes_logfile prev next = false.
Proof.
  intros H1 H2. unfold changes_logfile. rewrite H1, H2. simpl.
  rewrite String.eqb_refl. apply andb_false_r.
Qed.

End LogTabRuns.

(** X11: a component mounted on a log file whose job then leaves
    "running", with the same log file: the lines the tail delivers before
    and after the change of status, up to the moment the teardown timer
    fires, are all in the buffer, in order; once the timer has fired no
    tail watches and no timer is pending. *)
Theorem teardown_after_job_ends :
  forall (host : LogTab.Host) (p p' : LogTab.Props) (f : string)
         (before after : list string),
    LogTab.logfile p = Some f -> f <> EmptyString ->
    LogTab.logfile p' = Some f ->
    LogTabLife.leaves_running p p' = true ->
    (forall o, LogTab.Tail_constructor host f o = None) ->
    (forall x, LogTab.Tail_unwatch host x = None) ->
    let s := LogTab.run host (LogTab.initial p)
               ([LogTab.Mount] ++ map (LogTab.Line 0) before
                ++ [LogTab.NewProps p'] ++ map (LogTab.Line 0) after
                ++ [LogTab.TimerFires]) in
    LogTab.active_tails s = [] /\
    LogTab.timers s = [] /\
    LogTab.unwatch_calls s 0 = 1 /\
    ((before ++ after)%list <> [] ->
     LogTab.logdata (LogTab.comp s)
     = Some (LogTab.join
               (map (fun d => LogTab.markupLine host (d ++ LogTab.EOL host)
                                (LogTab.logPatterns (LogTab.constructor p)))
                    (before ++ after)%list))).
Proof.
  intros host p p' f before after Hf Hne Hf' Hl Hok Hun. cbv zeta.
  rewrite !run_app. simpl (LogTab.run host (LogTab.initial p) [LogTab.Mount]).
  destruct (mount_ok host p f Hf Hne Hok) as [o E]. rewrite E. clear E.
  change (LogTab.run host ?s (map (LogTab.Line 0) before))
    with (LogTab.deliver host s 0 before).
  rewrite deliver_single.
  set (pats := LogTab.logPatterns (LogTab.constructor p)).
  set (mk := fun d => LogTab.markupLine host (d ++ LogTab.EOL host) pats).
  simpl (LogTab.run host _ [LogTab.NewProps p']).
  rewrite step_NewProps. cbv zeta. simpl LogTab.props.
  rewrite (changes_logfile_same p p' f Hf Hf'), Hl. simpl.
  change (LogTab.run host ?s (map (LogTab.Line 0) after))
    with (LogTab.deliver host s 0 after).
  rewrite deliver_single. fold mk.
  simpl (LogTab.run host _ [LogTab.TimerFires]).
  rewrite step_TimerFires. simpl.
  unfold LogTab.unwatchLogfile, LogTab.bind, LogTab.get. simpl.
  unfold LogTab.try_catch, LogTab.bind, LogTab.logger_debug, LogTab.Tail_unwatch_call,
         LogTab.get, LogTab.modify, LogTab.bind. simpl.
  rewrite Hun. simpl.
  split; [reflexivity|]. split; [reflexivity|]. split; [reflexivity|].
  intros Hne'. rewrite map_app, join_app.
  destruct after as [|a after'].
  - destruct before as [|b before']; [rewrite app_nil_r in Hne'; congruence|].
    simpl. rewrite append_empty_r. reflexivity.
  - reflexivity.
Qed.

Lemma teardown_after_job_ends_witness :
  LogTab.active_tails LogTabLife.example_job_ends = [] /\
  LogTab.logdata (LogTab.comp LogTabLife.example_job_ends)
  = Some (LogTab.join ["hello" ++ LogTab.LF; "bye" ++ LogTab.LF]).
Proof.
  pose proof (teardown_after_job_ends LogTab.example_host
                (LogTab.example_props (Some "running") (Some "a.log"))
                (LogTab.example_props (Some "success") (Some "a.log"))
                "a.log" ["hello"] ["bye"]
                eq_refl ltac:(discriminate) eq_refl eq_refl
                (fun _ => eq_refl) (fun _ => eq_refl)) as H.
  cbv zeta in H. destruct H as [H1 [_ [_ H4]]].
  split; [exact H1|]. apply H4. discriminate.
Defined.

(** X12: the teardown timer stops whichever tail is held when it fires.
    If the job leaves "running" and, before the timer fires, the props
    change to a new log file with the job running again, then the timer
    stops the tail of the new log file: the held tail no longer watches
    although the job is running, and the tail of the first log file still
    watches. *)
Theorem stale_timer_stops_new_tail :
  forall (host : LogTab.Host) (p p1 p2 : LogTab.Props) (f g : string),
    LogTab.logfile p = Some f -> f <> EmptyString ->
    LogTab.logfile p1 = Some f ->
    LogTabLife.leaves_running p p1 = true ->
    LogTab.logfile p2 = Some g -> g <> EmptyString -> f <> g ->
    LogTab.jobStatus p2 = Some "running" ->
    (forall o, LogTab.Tail_constructor host f o = None) ->
    (forall o, LogTab.Tail_constructor host g o = None) ->
    (forall x, LogTab.Tail_unwatch host x = None) ->
    let s := LogTab.run host (LogTab.initial p)
               [LogTab.Mount; LogTab.NewProps p1; LogTab.NewProps p2; LogTab.TimerFires] in
    LogTab.jobStatus (LogTab.props (LogTab.comp s)) = Some "running" /\
    LogTab.tail (LogTab.comp s) = Some 1 /\
    map (fun x => (LogTab.filename x, LogTab.isWatching x)) (LogTab.tails s)
      = [(f, true); (g, false)] /\
    LogTab.timers s = [].
Proof.
  intros host p p1 p2 f g Hf Hne Hf1 Hl Hg Hgne Hfg Hrun Hokf Hokg Hun. cbv zeta.
  assert (C : LogTabLife.changes_logfile p1 p2 = true).
  { unfold LogTabLife.changes_logfile. rewrite Hf1, Hg. simpl.
    destruct (String.eqb_spec g EmptyString); [contradiction|].
    destruct (String.eqb_spec f g); [contradiction|]. reflexivity. }
  assert (L : LogTabLife.leaves_running p1 p2 = false).
  { unfold LogTabLife.leaves_running. rewrite Hrun. reflexivity. }
  rewrite run_cons.
  destruct (mount_ok host p f Hf Hne Hokf) as [o E]. rewrite E. clear E.
  rewrite run_cons.
  match goal with
  | |- context [LogTab.step host ?s0 (LogTab.NewProps p1)] =>
      pose proof (step_NewProps host s0 p1) as E
  end.
  cbv zeta in E. simpl LogTab.props in E.
  rewrite (changes_logfile_same p p1 f Hf Hf1), Hl in E.
  match type of E with ?l = _ => remember l as s1 eqn:Hs1 in * end.
  simpl in E. rewrite E. clear E Hs1 s1.
  rewrite run_cons.
  match goal with
  | |- context [LogTab.step host ?s0 (LogTab.NewProps p2)] =>
      pose proof (step_NewProps host s0 p2) as E
  end.
  cbv zeta in E. simpl LogTab.props in E. rewrite C, L, Hg in E.
  match type of E with
  | context [LogTab.tailLogfile host g ?s0] =>
      destruct (tailLogfile_ok host s0 g Hokg) as [o' E']; rewrite E' in E; clear E'
  end.
  match type of E with ?l = _ => remember l as s2 eqn:Hs2 in * end.
  simpl in E. rewrite E. clear E Hs2 s2.
  rewrite run_cons, step_TimerFires. simpl.
  unfold LogTab.unwatchLogfile, LogTab.bind, LogTab.get. simpl.
  unfold LogTab.try_catch, LogTab.bind, LogTab.logger_debug, LogTab.Tail_unwatch_call,
         LogTab.get, LogTab.modify, LogTab.bind. simpl.
  rewrite Hun. simpl. rewrite Hrun. repeat split.
Qed.

Lemma stale_timer_stops_new_tail_witness :
  LogTab.tail (LogTab.comp LogTabLife.example_rerun_before_timer) = Some 1 /\
  map (fun x => (LogTab.filename x, LogTab.isWatching x))
      (LogTab.tails LogTabLife.example_rerun_before_timer)
    = [("a.log", true); ("b.log", false)].
Proof.
  pose proof (stale_timer_stops_new_tail LogTab.example_host
                (LogTab.example_props (Some "running") (Some "a.log"))
                (LogTab.example_props (Some "success") (Some "a.log"))
                (LogTab.example_props (Some "running") (Some "b.log"))
                "a.log" "b.log"
                eq_refl ltac:(discriminate) eq_refl eq_refl
                eq_refl ltac:(discriminate) ltac:(discriminate) eq_refl
                (fun _ => eq_refl) (fun _ => eq_refl) (fun _ => eq_refl)) as H.
  cbv zeta in H. destruct H as [_ [H2 [H3 _]]].
  split; [exact H2|exact H3].
Defined.

(** X13: every button of the banner is enabled: the Open Workspace button
    is built disabled only for a running job, and then the banner holds
    the Cancel button alone.  The Cancel button is in the banner exactly
    when [jobStatus] is "running". *)
Theorem banner_buttons_are_enabled :
  forall (p : LogTab.Props),
    (forall a v h d l,
        LogTab.ModelStatusAlert p = Some a ->
        In (LogTab.Button v h d l) (LogTab.children a) -> d = false) /\
    ((exists a, LogTab.ModelStatusAlert p = Some a /\
                In LogTab.CancelButton (LogTab.children a))
     <-> LogTab.jobStatus p = Some "running").
Proof.
  intros p. unfold LogTab.ModelStatusAlert, LogTab.WorkspaceButton, LogTab.CancelButton.
  destruct (LogTab.opt_string_eqb (LogTab.jobStatus p) (Some "running")) eqn:R.
  - split.
    + intros a v h d l H Hin. inversion H; subst a. simpl in Hin.
      destruct Hin as [E|[]]. now inversion E.
    + split; [|intros _; eexists; split; [reflexivity|left; reflexivity]].
      intros _. destruct (LogTab.jobStatus p) as [js|]; [|discriminate].
      simpl in R. apply String.eqb_eq in R. now subst.
  - assert (N : LogTab.jobStatus p <> Some "running").
    { intros E. rewrite E in R. discriminate. }
    destruct (LogTab.opt_string_eqb (LogTab.jobStatus p) (Some "error"));
      [|destruct (LogTab.opt_string_eqb (LogTab.jobStatus p) (Some "success"))].
    + split.
      * intros a v h d l H Hin. inversion H; subst a. simpl in Hin.
        destruct Hin as [E|[E|[]]]; [discriminate|now inversion E].
      * split; [|contradiction].
        intros [a [H Hin]]. inversion H; subst a. simpl in Hin.
        destruct Hin as [E|[E|[]]]; discriminate.
    + split.
      * intros a v h d l H Hin. inversion H; subst a. simpl in Hin.
        destruct Hin as [E|[E|[]]]; [discriminate|now inversion E].
      * split; [|contradiction].
        intros [a [H Hin]]. inversion H; subst a. simpl in Hin.
        destruct Hin as [E|[E|[]]]; discriminate.
    + split; [intros a v h d l H; discriminate|].
      split; [intros [a [H _]]; discriminate|contradiction].
Qed.

Lemma banner_buttons_are_enabled_witness :
  exists a,
    LogTab.ModelStatusAlert (LogTab.example_props (Some "running") None) = Some a /\
    In LogTab.CancelButton (LogTab.children a).
Proof.
  apply (banner_buttons_are_enabled (LogTab.example_props (Some "running") None)).
  reflexivity.
Defined.

(** * The regular expression matcher against its meaning *)

Section RegexFacts.

Import LogTab RegexSem.

Lemma append_nil_inv (a b : string) :
  (a ++ b)%string = EmptyString -> a = EmptyString /\ b = EmptyString.
Proof. destruct a; simpl; [auto|discriminate]. Qed.

Lemma nullable_den (r : re) (st : bool) :
  nullable st r = true <-> den r st EmptyString.
Proof.
  induction r as [| | |p|a IHa b IHb|a IHa b IHb|a IHa]; simpl.
  - split; [discriminate|contradiction].
  - split; auto.
  - split; [auto|intros [H _]; exact H].
  - split; [discriminate|intros [c [H _]]; discriminate].
  - rewrite orb_true_iff, IHa, IHb. reflexivity.
  - rewrite andb_true_iff, IHa, IHb. split.
    + intros [Ha Hb]. exists EmptyString, EmptyString.
      simpl. rewrite andb_true_r. auto.
    + intros [s1 [s2 [E [Ha Hb]]]]. symmetry in E.
      apply append_nil_inv in E. destruct E; subst.
      simpl in Hb. rewrite andb_true_r in Hb. auto.
  - split; [intros _; constructor|reflexivity].
Qed.

Lemma den_alt (a b : re) (st : bool) (s : string) :
  den (alt a b) st s <-> den a st s \/ den b st s.
Proof. destruct a; destruct b; simpl; tauto. Qed.

Lemma den_Seq_Void_l (b : re) (st : bool) (s : string) :
  den (Seq Void b) st s <-> False.
Proof. simpl. split; [intros [s1 [s2 [_ [H _]]]]; exact H|contradiction]. Qed.

Lemma den_Seq_Void_r (a : re) (st : bool) (s : string) :
  den (Seq a Void) st s <-> False.
Proof. simpl. split; [intros [s1 [s2 [_ [_ H]]]]; exact H|contradiction]. Qed.

Lemma den_Seq_Eps_l (b : re) (st : bool) (s : string) :
  den (Seq Eps b) st s <-> den b st s.
Proof.
  simpl. split.
  - intros [s1 [s2 [E [H1 H2]]]]. subst. simpl in *.
    now rewrite andb_true_r in H2.
  - intros H. exists EmptyString, s. simpl. rewrite andb_true_r. auto.
Qed.

Lemma den_seq (a b : re) (st : bool) (s : string) :
  den (seq a b) st s <-> den (Seq a b) st s.
Proof.
  destruct a; destruct b; unfold seq;
    try reflexivity;
    try (rewrite den_Seq_Void_l; simpl; tauto);
    try (rewrite den_Seq_Void_r; simpl; tauto);
    try (rewrite den_Seq_Eps_l; reflexivity).
Qed.

Lemma deriv_den (r : re) :
  forall (st : bool) (c : ascii) (s : string),
    den (deriv st c r) false s <-> den r st (String c s).
Proof.
  induction r as [| | |p|a IHa b IHb|a IHa b IHb|a IHa]; intros st c s.
  - simpl. tauto.
  - simpl. split; [contradiction|discriminate].
  - simpl. split; [contradiction|intros [_ H]; discriminate].
  - simpl. destruct (p c) eqn:E; simpl.
    + split.
      * intros ->. exists c. auto.
      * intros [c' [H _]]. now inversion H.
    + split; [contradiction|].
      intros [c' [H H']]. inversion H; subst. congruence.
  - simpl deriv. rewrite den_alt, IHa, IHb. reflexivity.
  - assert (R : den (seq (deriv st c a) b) false s <->
                exists s1' s2, s = (s1' ++ s2)%string /\ den a st (String c s1') /\
                               den b false s2).
    { rewrite den_seq. simpl. split.
      - intros [s1 [s2 [E [H1 H2]]]]. exists s1, s2. rewrite <- IHa. auto.
      - intros [s1 [s2 [E [H1 H2]]]]. exists s1, s2. rewrite IHa. auto. }
    assert (G : den (Seq a b) st (String c s) <->
                (nullable st a = true /\ den b st (String c s)) \/
                (exists s1' s2, s = (s1' ++ s2)%string /\ den a st (String c s1') /\
                                den b false s2)).
    { simpl. split.
      - intros [s1 [s2 [E [H1 H2]]]]. destruct s1 as [|c1 s1'].
        + left. simpl in E. subst s2. simpl in H2. rewrite andb_true_r in H2.
          split; [apply nullable_den; exact H1|exact H2].
        + right. simpl in E. inversion E; subst. exists s1', s2.
          simpl in H2. rewrite andb_false_r in H2. auto.
      - intros [[Hn Hb]|[s1' [s2 [E [H1 H2]]]]].
        + exists EmptyString, (String c s). simpl. rewrite andb_true_r.
          split; [reflexivity|]. split; [apply nullable_den; exact Hn|exact Hb].
        + exists (String c s1'), s2. simpl. rewrite andb_false_r. subst. auto. }
    rewrite G. simpl deriv. destruct (nullable st a) eqn:N.
    + rewrite den_alt, R, IHb. tauto.
    + rewrite R. split; [auto|]. intros [[H _]|H]; [discriminate|exact H].
  - simpl deriv. rewrite den_seq. simpl. split.
    + intros [s1 [s2 [E [H1 H2]]]]. subst s.
      apply (star_cons (den a) st c s1 s2); [apply IHa; exact H1|exact H2].
    + intros H. remember (String c s) as w eqn:Ew.
      destruct H as [st'|st' c' s1 s2 H1 H2]; [discriminate|].
      simpl in Ew. inversion Ew; subst. exists s1, s2.
      split; [reflexivity|]. split; [apply IHa; exact H1|exact H2].
Qed.

Lemma matches_den (s : string) :
  forall (st : bool) (r : re), matches st r s = true <-> den r st s.
Proof.
  induction s as [|c s IH]; intros st r; simpl.
  - apply nullable_den.
  - rewrite IH. apply deriv_den.
Qed.

Lemma star_any (x : string) : forall st, star (den any) st x.
Proof.
  induction x as [|c x IH]; intros st; [constructor|].
  change (String c x) with (String c EmptyString ++ x)%string.
  apply star_cons; [|apply IH]. exists c. auto.
Qed.

(** [re_test r s]: some part of [s] matches [r]. *)
Lemma re_test_den (r : re) (s : string) :
  re_test r s = true <->
  exists a m b, s = (a ++ m ++ b)%string /\ den r (is_empty a) m.
Proof.
  unfold re_test. rewrite matches_den. simpl. split.
  - intros [a [s2 [E [_ [m [b [E2 [H _]]]]]]]]. subst. exists a, m, b. auto.
  - intros [a [m [b [E H]]]]. exists a, (m ++ b)%string.
    split; [exact E|]. split; [apply star_any|].
    exists m, b. split; [reflexivity|]. split; [exact H|apply star_any].
Qed.

Lemma den_lit (w : string) :
  forall (st : bool) (m : string), den (lit w) st m <-> m = w.
Proof.
  induction w as [|c w IH]; intros st m; simpl; [reflexivity|].
  split.
  - intros [s1 [s2 [E [[c' [E1 Hc]] H2]]]]. apply IH in H2.
    apply Ascii.eqb_eq in Hc. subst. reflexivity.
  - intros ->. exists (String c EmptyString), w.
    split; [reflexivity|]. split; [exists c; split; [reflexivity|apply Ascii.eqb_refl]|].
    apply IH. reflexivity.
Qed.

Lemma star_cls (p : ascii -> bool) (l : string) :
  forall st, star (den (Cls p)) st l <-> all_chars p l = true.
Proof.
  intros st. split.
  - intros H. induction H as [st|st c s1 s2 H1 H2 IH]; [reflexivity|].
    destruct H1 as [c' [E Hp]]. inversion E; subst. simpl. now rewrite Hp, IH.
  - revert st. induction l as [|c l IH]; intros st H; [constructor|].
    simpl in H. apply andb_true_iff in H. destruct H as [Hp Hl].
    change (String c l) with (String c EmptyString ++ l)%string.
    apply star_cons; [exists c; auto|apply IH; exact Hl].
Qed.

(** A capital letter and small letters after it. *)
Lemma den_word (st : bool) (m : string) :
  den (Seq upper (Star lower)) st m <->
  exists u l, m = String u l /\ is_upper u = true /\ all_chars is_lower l = true.
Proof.
  split.
  - intros [s1 [s2 [E [[u [E1 Hu]] H2]]]]. subst.
    apply star_cls in H2. exists u, s2. auto.
  - intros [u [l [E [Hu Hl]]]]. subst.
    exists (String u EmptyString), l. split; [reflexivity|].
    split; [exists u; auto|]. apply star_cls. exact Hl.
Qed.

Lemma words_last (st : bool) (m : string) :
  star (den (Seq upper (Star lower))) st m ->
  m = EmptyString \/
  exists pfx u l, m = (pfx ++ String u l)%string /\
                  is_upper u = true /\ all_chars is_lower l = true.
Proof.
  intros H. induction H as [st|st c s1 s2 H1 H2 IH]; [left; reflexivity|].
  right. apply den_word in H1. destruct H1 as [u [l [E [Hu Hl]]]].
  destruct IH as [->|[pfx [u' [l' [E' [Hu' Hl']]]]]].
  - exists EmptyString, u, l. rewrite append_empty_r. simpl. auto.
  - exists (String c s1 ++ pfx)%string, u', l'. subst s2.
    rewrite append_assoc. auto.
Qed.

Lemma den_plus_word (st : bool) (m : string) :
  den (plus (Seq upper (Star lower))) st m ->
  exists pfx u l, m = (pfx ++ String u l)%string /\
                  is_upper u = true /\ all_chars is_lower l = true.
Proof.
  intros [s1 [s2 [E [H1 H2]]]]. apply words_last in H2.
  apply den_word in H1. destruct H1 as [u [l [E1 [Hu Hl]]]].
  destruct H2 as [->|[pfx [u' [l' [E' [Hu' Hl']]]]]].
  - exists EmptyString, u, l. subst. rewrite append_empty_r. simpl. auto.
  - exists (s1 ++ pfx)%string, u', l'. subst m s2. rewrite append_assoc. auto.
Qed.

(** The lines that [LOG_ERROR_REGEX] matches. *)
Lemma LOG_ERROR_REGEX_spec (s : string) :
  re_test LOG_ERROR_REGEX s = true <->
  starts_with_space s = true \/ occurs "Traceback" s \/ occurs "ERROR" s \/
  has_error_name s.
Proof.
  rewrite re_test_den. split.
  - intros [a [m [b [E D]]]]. destruct D as [D|[D|[D|D]]].
    + apply den_lit in D. subst. right. left. exists a, b. reflexivity.
    + destruct D as [m1 [m2 [E' [D1 D2]]]]. apply den_lit in D2.
      apply den_plus_word in D1. destruct D1 as [pfx [u [l [E1 [Hu Hl]]]]].
      right. right. right. exists (a ++ pfx)%string, u, l, b.
      split; [|auto]. subst.
      rewrite ?append_assoc. simpl. rewrite ?append_assoc. reflexivity.
    + apply den_lit in D. subst. right. right. left. exists a, b. reflexivity.
    + destruct D as [s1 [s2 [E' [[Ha E1] [t1 [t2 [E2 [[c [Ec Hc]] _]]]]]]]].
      left. destruct a; [|discriminate]. subst. simpl. exact Hc.
  - intros [H|[[a [b E]]|[[a [b E]]|[a [u [l [b [E [Hu Hl]]]]]]]]].
    + destruct s as [|c s']; [discriminate|]. simpl in H.
      exists EmptyString, (String c EmptyString), s'. split; [reflexivity|].
      right. right. right.
      exists EmptyString, (String c EmptyString). split; [reflexivity|].
      split; [split; reflexivity|].
      exists (String c EmptyString), EmptyString. split; [reflexivity|].
      split; [exists c; auto|constructor].
    + exists a, "Traceback", b. split; [exact E|]. left. apply den_lit. reflexivity.
    + exists a, "ERROR", b. split; [exact E|].
      right. right. left. apply den_lit. reflexivity.
    + exists a, (String u l ++ "Error")%string, b. split.
      * rewrite E. rewrite ?append_assoc. reflexivity.
      * right. left. exists (String u l), "Error". split; [reflexivity|].
        split; [|apply den_lit; reflexivity].
        exists (String u l), EmptyString.
        split; [now rewrite append_empty_r|].
        split; [apply den_word; exists u, l; auto|constructor].
Qed.

End RegexFacts.

(** X14: [LOG_ERROR_REGEX] matches a line exactly when the line begins
    with a whitespace character, or contains "Traceback", or contains
    "ERROR", or contains a capital letter followed by any number of small
    letters and then "Error". *)
Theorem LOG_ERROR_REGEX_matches_exactly :
  forall (s : string),
    LogTab.re_test LogTab.LOG_ERROR_REGEX s = true <->
    RegexSem.starts_with_space s = true \/
    RegexSem.occurs "Traceback" s \/
    RegexSem.occurs "ERROR" s \/
    RegexSem.has_error_name s.
Proof. exact LOG_ERROR_REGEX_spec. Qed.

(** X15: a delivered line whose text, with the end-of-line sequence
    appended, begins with a whitespace character is marked up as an error
    line, whatever the module pattern says; so is every empty line when
    the end-of-line sequence begins with a line feed or carriage
    return. *)
Theorem indented_and_empty_lines_are_error_lines :
  forall (host : LogTab.Host) (p : LogTab.Props) (data : string),
    RegexSem.starts_with_space (data ++ LogTab.EOL host) = true ->
    LogTab.markupLine host (data ++ LogTab.EOL host)
      (LogTab.logPatterns (LogTab.constructor p))
    = LogTab.sanitizeHtml host
        (LogTab.wrap "invest-log-error" (data ++ LogTab.EOL host))
        LogTab.ALLOWED_HTML_OPTIONS.
Proof.
  intros host p data H.
  assert (T : LogTab.re_test LogTab.LOG_ERROR_REGEX (data ++ LogTab.EOL host) = true).
  { apply LOG_ERROR_REGEX_spec. left. exact H. }
  simpl. rewrite T. reflexivity.
Qed.

Lemma indented_and_empty_lines_are_error_lines_witness :
  LogTab.markupLine LogTab.example_host (EmptyString ++ LogTab.LF)
    (LogTab.logPatterns (LogTab.constructor (LogTab.example_props None None)))
  = LogTab.wrap "invest-log-error" LogTab.LF.
Proof.
  apply (indented_and_empty_lines_are_error_lines LogTab.example_host
           (LogTab.example_props None None) EmptyString).
  reflexivity.
Defined.

(** X16: without a log file the component tails nothing.  When the
    [logfile] prop is undefined or the empty string, mounting changes
    nothing at all, and an update to such props creates no [Tail] object,
    leaves [this.tail] and the buffer as they are and logs nothing. *)
Theorem no_logfile_no_tail :
  forall (host : LogTab.Host) (s : LogTab.Sys) (p : LogTab.Props),
    LogTab.truthy (LogTab.logfile p) = false ->
    (LogTab.logfile (LogTab.props (LogTab.comp s)) = LogTab.logfile p ->
     LogTab.step host s LogTab.Mount = s) /\
    let s' := LogTab.step host s (LogTab.NewProps p) in
    LogTab.tails s' = LogTab.tails s /\
    LogTab.tail (LogTab.comp s') = LogTab.tail (LogTab.comp s) /\
    LogTab.logdata (LogTab.comp s') = LogTab.logdata (LogTab.comp s) /\
    LogTab.log s' = LogTab.log s /\
    LogTab.props (LogTab.comp s') = p.
Proof.
  intros host s p H. split.
  - intros E. rewrite step_Mount, E, H. reflexivity.
  - cbv zeta. rewrite step_NewProps. cbv zeta.
    unfold LogTabLife.changes_logfile. rewrite H. simpl.
    destruct (LogTabLife.leaves_running _ _); repeat split.
Qed.

Lemma no_logfile_no_tail_witness :
  LogTab.tails (LogTab.step LogTab.example_host LogTab.example_mounted
                  (LogTab.NewProps (LogTab.example_props (Some "running") None)))
  = LogTab.tails LogTab.example_mounted.
Proof.
  apply (no_logfile_no_tail LogTab.example_host LogTab.example_mounted
           (LogTab.example_props (Some "running") None)).
  reflexivity.
Defined.
